(** * Invision: the bi-calendar invoice reconciliation engine

    A shallow embedding of the deterministic post-processing layer of the
    repository:

    - [src/lib/nepaliCalendar.ts]: BS/AD conversion, date parsing and
      formatting, fiscal year;
    - the validation module (checkMathMismatch, checkVatInconsistent,
      inferVatRate, canAutoApprove) and the normalization module
      (convertNepaliDigits, normalizeString, normalizeVendorName,
      normalizeInvoiceNumber, generateMergeKey);
    - [src/lib/invoiceProcessing.ts]: inferVATRate, validateVAT,
      generateMergeKey and the pipeline processGeminiExtraction;
    - further on, the validity and month-length functions of the calendar,
      the date checks of the validation module, the normalizers of single
      fields (convertToNepaliDigits, normalizePAN, normalizeDateString) and,
      of the export module, getFiscalYear and escapeCSV.

    Conventions.  A JavaScript string is the list of its UTF-16 code units.
    [null]/[undefined] are [None].  Calendar components are integers ([Z],
    standing for the integers a double holds exactly); a number that may be
    [NaN] (the result of [parseInt]) is an [option Z].
    Amounts are JSON numbers and are modelled as rationals ([Q]): JSON carries
    neither [NaN] nor an infinity, and rounding of doubles is not modelled.
    A [try { ... } catch { return null }] block is the option monad: [None]
    is a thrown exception. *)

From Stdlib Require Import ZArith NArith List String Ascii Bool Lia.
From Stdlib Require Import DecimalString QArith Qabs.
From Stdlib Require Import DecimalPos DecimalFacts.
Import ListNotations.

Local Open Scope Z_scope.

(* ------------------------------------------------------------------ *)
(** * JavaScript built-ins used by the sources *)
(* ------------------------------------------------------------------ *)

Module Js.

(** A string: its UTF-16 code units. *)
Definition jsstring := list N.

(** The code units of an ASCII literal. *)
Definition u (s : string) : jsstring :=
  map N_of_ascii (list_ascii_of_string s).

Fixpoint dropWhile {A} (p : A -> bool) (l : list A) : list A :=
  match l with
  | [] => []
  | x :: r => if p x then dropWhile p r else l
  end.

Fixpoint takeWhile {A} (p : A -> bool) (l : list A) : list A :=
  match l with
  | [] => []
  | x :: r => if p x then x :: takeWhile p r else []
  end.

(** [!s] for a string or null: true on null and on the empty string. *)
Definition falsyStr (s : option jsstring) : bool :=
  match s with
  | None | Some [] => true
  | Some (_ :: _) => false
  end.

(** WhiteSpace and LineTerminator: what [trim] strips and [\s] matches. *)
Definition isWhiteSpace (c : N) : bool :=
  (((9 <=? c) && (c <=? 13)) || (c =? 32) || (c =? 160) || (c =? 5760)
   || ((8192 <=? c) && (c <=? 8202)) || (c =? 8232) || (c =? 8233)
   || (c =? 8239) || (c =? 8287) || (c =? 12288) || (c =? 65279))%N.

Definition trimStart (s : jsstring) : jsstring := dropWhile isWhiteSpace s.
Definition trimEnd (s : jsstring) : jsstring := rev (trimStart (rev s)).
Definition trim (s : jsstring) : jsstring := trimEnd (trimStart s).

(** [s.replace(/[...]/g, c)] for a character class [p]. *)
Definition replaceClass (p : N -> bool) (c : N) (s : jsstring) : jsstring :=
  map (fun x => if p x then c else x) s.

(** [s.replace(/[...]/g, '')] for a character class [p]. *)
Definition removeClass (p : N -> bool) (s : jsstring) : jsstring :=
  filter (fun x => negb (p x)) s.

(** [s.replace(/\s+/g, ' ')]: [inRun] says the previous unit was white space. *)
Fixpoint collapseFrom (inRun : bool) (s : jsstring) : jsstring :=
  match s with
  | [] => []
  | c :: r =>
      if isWhiteSpace c
      then (if inRun then collapseFrom true r else 32%N :: collapseFrom true r)
      else c :: collapseFrom false r
  end.

Definition collapseWhitespace (s : jsstring) : jsstring := collapseFrom false s.

(** [s.split(sep)] for a one-unit separator. *)
Fixpoint split (sep : N) (s : jsstring) : list jsstring :=
  match s with
  | [] => [[]]
  | c :: r =>
      if (c =? sep)%N then [] :: split sep r
      else match split sep r with
           | [] => [[c]]
           | p :: ps => (c :: p) :: ps
           end
  end.

Definition isDigit (c : N) : bool := ((48 <=? c) && (c <=? 57))%N.
Definition isLower (c : N) : bool := ((97 <=? c) && (c <=? 122))%N.
Definition isUpper (c : N) : bool := ((65 <=? c) && (c <=? 90))%N.

Definition digitsValue (ds : jsstring) : Z :=
  fold_left (fun acc c => 10 * acc + (Z.of_N c - 48)) ds 0.

(** [parseInt(s, 10)]: leading white space, an optional sign, then the longest
    run of decimal digits; [None] is [NaN]. *)
Definition parseInt (s : jsstring) : option Z :=
  let s1 := trimStart s in
  let '(sign, s2) :=
    match s1 with
    | 45%N :: r => (-1, r)
    | 43%N :: r => (1, r)
    | _ => (1, s1)
    end in
  match takeWhile isDigit s2 with
  | [] => None
  | ds => Some (sign * digitsValue ds)
  end.

(** [String(n)] and template interpolation of an integer. *)
Definition numberToString (n : Z) : jsstring :=
  u (NilZero.string_of_int (Z.to_int n)).

(** [s.padStart(n, c)] for a one-unit filler. *)
Definition padStart (n : nat) (c : N) (s : jsstring) : jsstring :=
  repeat c (n - List.length s)%nat ++ s.

(** [s.endsWith(t)]. *)
Definition endsWith (s t : jsstring) : bool :=
  if list_eq_dec N.eq_dec (skipn (List.length s - List.length t)%nat s) t
  then (List.length t <=? List.length s)%nat else false.

(** [s.slice(0, -k)]. *)
Definition sliceOffEnd (k : nat) (s : jsstring) : jsstring :=
  firstn (List.length s - k)%nat s.

(** ** Date *)

(** Day number (days since 1970-01-01) of a proleptic Gregorian date,
    [m] in 1..12. *)
Definition daysFromCivil (y m d : Z) : Z :=
  let y' := if m <=? 2 then y - 1 else y in
  let era := y' / 400 in
  let yoe := y' - era * 400 in
  let mp := if 2 <? m then m - 3 else m + 9 in
  let doy := (153 * mp + 2) / 5 + d - 1 in
  let doe := yoe * 365 + yoe / 4 - yoe / 100 + doy in
  era * 146097 + doe - 719468.

(** The Gregorian date (year, month 1..12, day) of a day number. *)
Definition civilFromDays (n : Z) : Z * Z * Z :=
  let z := n + 719468 in
  let era := z / 146097 in
  let doe := z - era * 146097 in
  let yoe := (doe - doe / 1460 + doe / 36524 - doe / 146096) / 365 in
  let doy := doe - (365 * yoe + yoe / 4 - yoe / 100) in
  let mp := (5 * doy + 2) / 153 in
  let d := doy - (153 * mp + 2) / 5 + 1 in
  let m := if mp <? 10 then mp + 3 else mp - 9 in
  ((if m <=? 2 then yoe + era * 400 + 1 else yoe + era * 400), m, d).

(** A Date object: its local calendar day, or Invalid Date. *)
Inductive Date :=
| InvalidDate
| DateAt (dayNumber : Z).

(** [new Date(year, monthIndex, day)], local time.  Years 0..99 mean
    1900..1999; month and day overflow carry (MakeDay); a time value beyond
    100,000,000 days from the epoch is Invalid Date (TimeClip). *)
Definition newDate (y m0 d : Z) : Date :=
  let yr := if (0 <=? y) && (y <=? 99) then 1900 + y else y in
  let ym := yr + m0 / 12 in
  let mn := m0 mod 12 in
  let n := daysFromCivil ym (mn + 1) 1 + d - 1 in
  if Z.abs n <=? 100000000 then DateAt n else InvalidDate.

Definition getFullYear (n : Z) : Z := fst (fst (civilFromDays n)).
Definition getMonth (n : Z) : Z := snd (fst (civilFromDays n)) - 1.
Definition getDate (n : Z) : Z := snd (civilFromDays n).

End Js.

Import Js.

(* ------------------------------------------------------------------ *)
(** * The calendar library *)
(* ------------------------------------------------------------------ *)

(** What [getAD()] and [getBS()] return: month is 0-indexed. *)
Record YMD := mkYMD { ymd_year : Z; ymd_month : Z; ymd_date : Z }.

(** The interface of the npm package nepali-date-converter that
    [nepaliCalendar.ts] uses.  The package and its calendar table are not part
    of the repository, so the conversion functions below take it as a
    parameter.  A constructor that throws returns [None]. *)
Record NepaliDateLib := mkLib {
  NepaliDate : Type;
  (** [new NepaliDate(year, monthIndex, date)]; an argument may be [NaN]. *)
  newFromBS : option Z -> option Z -> option Z -> option NepaliDate;
  (** [new NepaliDate(jsDate)] *)
  newFromDate : Date -> option NepaliDate;
  getAD : NepaliDate -> YMD;
  getBS : NepaliDate -> YMD
}.

Arguments newFromBS : clear implicits.
Arguments newFromDate : clear implicits.
Arguments getAD : clear implicits.
Arguments getBS : clear implicits.

(* ------------------------------------------------------------------ *)
(** * src/lib/nepaliCalendar.ts *)
(* ------------------------------------------------------------------ *)

Record BSDate := mkBS { bs_year : Z; bs_month : Z; bs_day : Z }.
Record ADDate := mkAD { ad_year : Z; ad_month : Z; ad_day : Z }.

Record ConvertedDate := mkConverted {
  cd_bs : BSDate;
  cd_ad : ADDate;
  bsFormatted : jsstring;
  adFormatted : jsstring
}.

Inductive Calendar := BS | AD.

Section Calendar.

Variable lib : NepaliDateLib.

Definition bsToAd (bs : BSDate) : option ADDate :=
  match newFromBS lib (Some (bs_year bs)) (Some (bs_month bs - 1)) (Some (bs_day bs)) with
  | Some npDate =>
      let ad := getAD lib npDate in
      Some (mkAD (ymd_year ad) (ymd_month ad + 1) (ymd_date ad))
  | None => None
  end.

Definition adToBs (ad : ADDate) : option BSDate :=
  let jsDate := newDate (ad_year ad) (ad_month ad - 1) (ad_day ad) in
  match newFromDate lib jsDate with
  | Some npDate =>
      let bs := getBS lib npDate in
      Some (mkBS (ymd_year bs) (ymd_month bs + 1) (ymd_date bs))
  | None => None
  end.

Definition isDotOrHyphen (c : N) : bool := ((c =? 46) || (c =? 45))%N.
Definition isSlash (c : N) : bool := (c =? 47)%N.
Definition isDateSeparator (c : N) : bool := ((c =? 46) || (c =? 45) || (c =? 47))%N.

(** The three numbers of a date string already cut at [sep], with the bounds
    on month and day that the two parsers share but for the largest day. *)
Definition parseParts (parts : list jsstring) (maxDay : Z) : option (Z * Z * Z) :=
  match parts with
  | [p0; p1; p2] =>
      match parseInt p0, parseInt p1, parseInt p2 with
      | Some year, Some month, Some day =>
          if (month <? 1) || (12 <? month) || (day <? 1) || (maxDay <? day)
          then None
          else Some (year, month, day)
      | _, _, _ => None
      end
  | _ => None
  end.

Definition parseBSDate (str : jsstring) : option BSDate :=
  match str with
  | [] => None
  | _ =>
      let cleaned := replaceClass isDotOrHyphen 47%N (trim str) in
      match parseParts (split 47%N cleaned) 32 with
      | Some (year, month, day) => Some (mkBS year month day)
      | None => None
      end
  end.

Definition parseADDate (str : jsstring) : option ADDate :=
  match str with
  | [] => None
  | _ =>
      let cleaned := replaceClass isSlash 45%N (trim str) in
      match parseParts (split 45%N cleaned) 31 with
      | Some (year, month, day) => Some (mkAD year month day)
      | None => None
      end
  end.

Definition pad2 (n : Z) : jsstring := padStart 2 48%N (numberToString n).

Definition formatBSDate (bs : BSDate) : jsstring :=
  numberToString (bs_year bs) ++ u "/" ++ pad2 (bs_month bs) ++ u "/" ++ pad2 (bs_day bs).

Definition formatADDate (ad : ADDate) : jsstring :=
  numberToString (ad_year ad) ++ u "-" ++ pad2 (ad_month ad) ++ u "-" ++ pad2 (ad_day ad).

Definition convertFromBS (bsString : jsstring) : option ConvertedDate :=
  match parseBSDate bsString with
  | None => None
  | Some bs =>
      match bsToAd bs with
      | None => None
      | Some ad => Some (mkConverted bs ad (formatBSDate bs) (formatADDate ad))
      end
  end.

Definition convertFromAD (adString : jsstring) : option ConvertedDate :=
  match parseADDate adString with
  | None => None
  | Some ad =>
      match adToBs ad with
      | None => None
      | Some bs => Some (mkConverted bs ad (formatBSDate bs) (formatADDate ad))
      end
  end.

Definition detectCalendar (dateString : jsstring) : option Calendar :=
  match dateString with
  | [] => None
  | _ =>
      let cleaned := replaceClass isDateSeparator 47%N (trim dateString) in
      match split 47%N cleaned with
      | [p0; p1; p2] =>
          match parseInt p0 with
          | None => None
          | Some year =>
              if 2050 <? year then Some BS
              else if year <? 2000 then Some AD
              else
                let month := parseInt p1 in
                let day := parseInt p2 in
                match newFromBS lib (Some year) (option_map (fun m => m - 1) month) day with
                | Some _ => Some BS
                | None => Some AD
                end
          end
      | _ => None
      end
  end.

End Calendar.

Definition getFiscalYear (bs : BSDate) : jsstring :=
  if 4 <=? bs_month bs then
    let endYear := Z.rem (bs_year bs + 1) 100 in
    numberToString (bs_year bs) ++ u "/" ++ padStart 2 48%N (numberToString endYear)
  else
    let startYear := bs_year bs - 1 in
    let endYear := Z.rem (bs_year bs) 100 in
    numberToString startYear ++ u "/" ++ padStart 2 48%N (numberToString endYear).


(* ------------------------------------------------------------------ *)
(** * Amounts *)
(* ------------------------------------------------------------------ *)

(** A nullable amount: [number | null]. *)
Definition amount := option Q.

(** [x === 0] on a number. *)
Definition isZero (x : Q) : bool := Qeq_bool x 0.

(** [!x] on a nullable number: null or zero. *)
Definition falsyNum (x : amount) : bool :=
  match x with
  | None => true
  | Some q => isZero q
  end.

(** [x || 0]. *)
Definition orZero (x : amount) : Q :=
  match x with
  | None => 0%Q
  | Some q => if isZero q then 0%Q else q
  end.

(** [a > b] and [a <= b]. *)
Definition Qgtb (a b : Q) : bool := negb (Qle_bool a b).
Definition Qleb (a b : Q) : bool := Qle_bool a b.

(* ------------------------------------------------------------------ *)
(** * The validation module *)
(* ------------------------------------------------------------------ *)

Record InvoiceValidationFlags (note : Type) := mkFlags {
  missing_fields : bool;
  math_mismatch : bool;
  vat_inconsistent : bool;
  date_conversion_failed : bool;
  date_mismatch : bool;
  duplicate_invoice : bool;
  pan_invalid : bool;
  notes : list note
}.

Arguments mkFlags {note}.
Arguments missing_fields {note}.
Arguments math_mismatch {note}.
Arguments vat_inconsistent {note}.
Arguments date_conversion_failed {note}.
Arguments date_mismatch {note}.
Arguments duplicate_invoice {note}.
Arguments pan_invalid {note}.
Arguments notes {note}.

Module Validation.

Local Open Scope Q_scope.

Definition AMOUNT_TOLERANCE : Q := 2.
Definition VALID_VAT_RATES : list Q := [0; 13].

(** A note is kept as its template and the values interpolated in it. *)
Inductive Note :=
| MathMismatchNote (taxable vat expectedTotal grandTotal difference : Q)
| VatInconsistentNote (vatRate taxable expectedVat vat difference : Q)
| MissingFieldsNote (fields : list jsstring)
| InvalidPANNote (pan : jsstring) (digits : nat)
| DateConversionFailedNote.

Definition checkMathMismatchTol (taxableAmount vatAmount grandTotal : amount)
    (tolerance : Q) : bool * option Note :=
  match grandTotal with
  | None => (false, None)
  | Some grandTotal =>
      let taxable := orZero taxableAmount in
      let vat := orZero vatAmount in
      let expectedTotal := taxable + vat in
      let difference := Qabs (expectedTotal - grandTotal) in
      if Qgtb difference tolerance
      then (true, Some (MathMismatchNote taxable vat expectedTotal grandTotal difference))
      else (false, None)
  end.

(** The default argument [tolerance = AMOUNT_TOLERANCE]. *)
Definition checkMathMismatch (taxableAmount vatAmount grandTotal : amount) :=
  checkMathMismatchTol taxableAmount vatAmount grandTotal AMOUNT_TOLERANCE.

Definition checkVatInconsistentTol (taxableAmount vatAmount vatRate : amount)
    (tolerance : Q) : bool * option Note :=
  match vatRate with
  | None => (false, None)
  | Some vatRate =>
      if isZero vatRate then (false, None) else
      match taxableAmount with
      | None => (false, None)
      | Some taxableAmount =>
          if isZero taxableAmount then (false, None) else
          match vatAmount with
          | None => (false, None)
          | Some vatAmount =>
              let expectedVat := taxableAmount * (vatRate / 100) in
              let difference := Qabs (expectedVat - vatAmount) in
              if Qgtb difference tolerance
              then (true, Some (VatInconsistentNote vatRate taxableAmount
                                  expectedVat vatAmount difference))
              else (false, None)
          end
      end
  end.

Definition checkVatInconsistent (taxableAmount vatAmount vatRate : amount) :=
  checkVatInconsistentTol taxableAmount vatAmount vatRate AMOUNT_TOLERANCE.

Definition inferVatRate (taxableAmount vatAmount explicitRate : amount) : Q :=
  let inferred :=
    if falsyNum vatAmount then 0
    else
      let closeTo13 :=
        match taxableAmount, vatAmount with
        | Some taxable, Some vat =>
            negb (isZero taxable) && Qgtb taxable 0
            && Qleb (Qabs ((vat / taxable) * 100 - 13)) 1
        | _, _ => false
        end in
      if closeTo13 then 13 else 13 in
  match explicitRate with
  | Some r => if existsb (Qeq_bool r) VALID_VAT_RATES then r else inferred
  | None => inferred
  end.

Record MissingFieldsInput := mkMissingInput {
  mf_vendor_name_en : option jsstring;
  mf_invoice_number_en : option jsstring;
  mf_primary_date_present : bool;
  mf_grand_total : amount
}.

Definition checkMissingFields (data : MissingFieldsInput) : bool * list jsstring :=
  let missing :=
    (if falsyStr (mf_vendor_name_en data) then [u "vendor_name"] else [])
    ++ (if falsyStr (mf_invoice_number_en data) then [u "invoice_number"] else [])
    ++ (if mf_primary_date_present data then [] else [u "date"])
    ++ (match mf_grand_total data with None => [u "grand_total"] | Some _ => [] end) in
  (negb (Nat.eqb (List.length missing) 0), missing).

Record PANResult := mkPAN {
  pan_valid : bool;
  pan_normalized : option jsstring;
  pan_note : option Note
}.

Definition validatePAN (pan : option jsstring) : PANResult :=
  if falsyStr pan then mkPAN true None None else
  match pan with
  | None => mkPAN true None None
  | Some pan =>
      let digits := removeClass (fun c => negb (isDigit c)) pan in
      if negb (Nat.eqb (List.length digits) 9)
      then mkPAN false (match digits with [] => None | _ => Some digits end)
                 (Some (InvalidPANNote pan (List.length digits)))
      else mkPAN true (Some digits) None
  end.

(** The [primary_date] field of the argument of validateInvoice: only
    [conversion_valid] is read, and it is optional. *)
Record InvoiceInput := mkInvoiceInput {
  in_vendor_name_en : option jsstring;
  in_invoice_number_en : option jsstring;
  in_primary_date : option (option bool);
  in_taxable_amount : amount;
  in_vat_amount : amount;
  in_vat_rate : amount;
  in_grand_total : amount;
  in_seller_pan : option jsstring
}.

Definition optNote (n : option Note) : list Note :=
  match n with Some x => [x] | None => [] end.

Definition validateInvoice (data : InvoiceInput) : InvoiceValidationFlags Note :=
  let '(missing, fields) :=
    checkMissingFields
      (mkMissingInput (in_vendor_name_en data) (in_invoice_number_en data)
         (match in_primary_date data with Some _ => true | None => false end)
         (in_grand_total data)) in
  let notes1 := if missing then [MissingFieldsNote fields] else [] in
  let mathResult :=
    checkMathMismatch (in_taxable_amount data) (in_vat_amount data) (in_grand_total data) in
  let vatResult :=
    checkVatInconsistent (in_taxable_amount data) (in_vat_amount data) (in_vat_rate data) in
  let panResult := validatePAN (in_seller_pan data) in
  let dateConversionFailed :=
    match in_primary_date data with
    | Some (Some true) => false
    | Some _ => true
    | None => false
    end in
  mkFlags missing (fst mathResult) (fst vatResult) dateConversionFailed
    false false (negb (pan_valid panResult))
    (notes1 ++ optNote (snd mathResult) ++ optNote (snd vatResult)
       ++ optNote (pan_note panResult)
       ++ (if dateConversionFailed then [DateConversionFailedNote] else [])).

Definition canAutoApprove {note} (flags : InvoiceValidationFlags note) : bool :=
  negb (missing_fields flags) && negb (math_mismatch flags)
  && negb (date_conversion_failed flags).

End Validation.

(* ------------------------------------------------------------------ *)
(** * The normalization module *)
(* ------------------------------------------------------------------ *)

Module Normalization.

(** The Devanagari digits U+0966..U+096F. *)
Definition nepaliDigit (c : N) : N :=
  if ((2406 <=? c) && (c <=? 2415))%N then (c - 2406 + 48)%N else c.

Definition convertNepaliDigits (input : option jsstring) : option jsstring :=
  match input with
  | None | Some [] => None
  | Some s => Some (map nepaliDigit s)
  end.

Definition isControl (c : N) : bool := ((c <=? 31) || (c =? 127))%N.

Definition normalizeString (input : option jsstring) : option jsstring :=
  match input with
  | None | Some [] => None
  | Some s => Some (collapseWhitespace (removeClass isControl (trim s)))
  end.

Definition suffixes : list jsstring :=
  [ u "pvt ltd"; u "pvt. ltd."; u "pvt. ltd"; u "private limited";
    u "p ltd"; u "p. ltd."; u "limited"; u "ltd"; u "ltd.";
    u "(p) ltd"; u "(pvt) ltd";
    [2346; 2381; 2352; 2366; 32; 2354; 2367]%N;
    [2346; 2381; 2352; 2366; 46; 32; 2354; 2367; 46]%N ].

(** One turn of the loop over [suffixes]. *)
Definition stripSuffix (normalized suffix : jsstring) : jsstring :=
  if endsWith normalized suffix
  then trim (sliceOffEnd (List.length suffix) normalized)
  else normalized.

Definition isInvoiceChar (c : N) : bool :=
  isLower c || isDigit c || (c =? 45)%N.

Section WithCaseMapping.

(** [String.prototype.toLowerCase] follows the Unicode case tables, which are
    not modelled: the functions take it as a parameter. *)
Variable toLowerCase : jsstring -> jsstring.

Definition normalizeVendorName (input : option jsstring) : option jsstring :=
  if falsyStr input then None else
  match normalizeString input with
  | None | Some [] => None
  | Some normalized =>
      Some (fold_left stripSuffix suffixes (toLowerCase normalized))
  end.

Definition normalizeInvoiceNumber (input : option jsstring) : option jsstring :=
  if falsyStr input then None else
  match convertNepaliDigits input with
  | None | Some [] => None
  | Some normalized =>
      match removeClass (fun c => negb (isInvoiceChar c)) (toLowerCase normalized) with
      | [] => None
      | r => Some r
      end
  end.

Definition generateMergeKey (workspaceId : jsstring)
    (vendorName invoiceNumber bsDate : option jsstring) : option jsstring :=
  if falsyStr (Some workspaceId) || falsyStr vendorName
     || falsyStr invoiceNumber || falsyStr bsDate
  then None else
  let vendor := normalizeVendorName vendorName in
  let invNum := normalizeInvoiceNumber invoiceNumber in
  if falsyStr vendor || falsyStr invNum then None else
  match vendor, invNum, bsDate with
  | Some vendor, Some invNum, Some bsDate =>
      Some (workspaceId ++ u "|" ++ vendor ++ u "|" ++ invNum ++ u "|" ++ bsDate)
  | _, _, _ => None
  end.

End WithCaseMapping.

(** The case mapping on ASCII strings: A..Z to a..z. *)
Definition asciiLower (c : N) : N := if isUpper c then (c + 32)%N else c.
Definition asciiToLowerCase (s : jsstring) : jsstring := map asciiLower s.

End Normalization.

(* ------------------------------------------------------------------ *)
(** * src/lib/invoiceProcessing.ts *)
(* ------------------------------------------------------------------ *)

Record GeminiExtractionResponse := mkExtraction {
  vendor_name_raw : option jsstring;
  vendor_name_en : option jsstring;
  seller_pan : option jsstring;
  invoice_number_raw : option jsstring;
  invoice_number_en : option jsstring;
  transaction_date_raw : option jsstring;
  transaction_date_calendar : option Calendar;
  bill_issuing_date_raw : option jsstring;
  bill_issuing_date_calendar : option Calendar;
  taxable_amount : amount;
  vat_amount : amount;
  vat_rate : amount;
  grand_total : amount
}.

Record NormalizedDate := mkNormalizedDate {
  raw_text : jsstring;
  calendar_detected : Calendar;
  bs_date : jsstring;
  ad_date : jsstring;
  conversion_valid : bool
}.

Inductive DateSource := transaction | bill_issuing.

Record ProcessedInvoiceData := mkData {
  d_vendor_name_raw : option jsstring;
  d_vendor_name_en : option jsstring;
  d_seller_pan : option jsstring;
  d_pan_valid : bool;
  d_invoice_number_raw : option jsstring;
  d_invoice_number_en : option jsstring;
  d_transaction_date : option NormalizedDate;
  d_bill_issuing_date : option NormalizedDate;
  d_primary_date : option NormalizedDate;
  d_primary_date_source : option DateSource;
  d_taxable_amount : amount;
  d_vat_amount : amount;
  d_vat_rate : Q;
  d_grand_total : amount;
  d_is_vat_invoice : bool;
  d_merge_key : option jsstring
}.

Module InvoiceProcessing.

Import Normalization.

Local Open Scope Q_scope.

Inductive Note :=
| TransactionDateFailedNote
| BillIssuingDateFailedNote
| InvalidPANNote (pan : jsstring)
| MathMismatchNote (taxable vat expectedTotal total : Q)
| VatInconsistentNote (vatRate taxable expectedVat vat : Q)
| MissingFieldsNote (fields : list jsstring).

Inductive Confidence := exact | fuzzy.

Record MergeCandidate := mkCandidate {
  existing_invoice_id : jsstring;
  merge_key : jsstring;
  confidence : Confidence
}.

Record InvoiceProcessingResult := mkResult {
  success : bool;
  data : ProcessedInvoiceData;
  flags : InvoiceValidationFlags Note;
  merge_candidate : option MergeCandidate;
  can_approve : bool
}.

Definition determinePrimaryDate (transactionDate billIssuingDate : option NormalizedDate)
    : option NormalizedDate * option DateSource :=
  match transactionDate with
  | Some td =>
      if conversion_valid td then (transactionDate, Some transaction)
      else match billIssuingDate with
           | Some bd =>
               if conversion_valid bd then (billIssuingDate, Some bill_issuing)
               else (None, None)
           | None => (None, None)
           end
  | None =>
      match billIssuingDate with
      | Some bd =>
          if conversion_valid bd then (billIssuingDate, Some bill_issuing)
          else (None, None)
      | None => (None, None)
      end
  end.

Definition validatePAN (pan : option jsstring) : bool :=
  if falsyStr pan then false else
  let cleaned :=
    match convertNepaliDigits pan with
    | Some s => removeClass (fun c => negb (isDigit c)) s
    | None => []
    end in
  Nat.eqb (List.length cleaned) 9.

Definition inferVATRate (vatAmount taxableAmount explicitRate : amount) : Q :=
  let inferred :=
    if falsyNum vatAmount then 0
    else
      let closeTo13 :=
        match taxableAmount, vatAmount with
        | Some taxable, Some vat =>
            negb (isZero taxable) && Qgtb taxable 0
            && Qleb (Qabs ((vat / taxable) * 100 - 13)) 1
        | _, _ => false
        end in
      if closeTo13 then 13 else 13 in
  match explicitRate with
  | Some r => if Qeq_bool r 0 || Qeq_bool r 13 then r else inferred
  | None => inferred
  end.

Record VATValidation := mkVAT {
  v_math_mismatch : bool;
  v_vat_inconsistent : bool;
  v_notes : list Note
}.

Definition validateVAT (taxableAmount vatAmount grandTotal : amount) (vatRate : Q)
    : VATValidation :=
  let taxable := orZero taxableAmount in
  let vat := orZero vatAmount in
  let total := orZero grandTotal in
  let expectedTotal := taxable + vat in
  let math_mismatch := Qgtb (Qabs (expectedTotal - total)) 2 in
  let notes1 :=
    if math_mismatch then [MathMismatchNote taxable vat expectedTotal total] else [] in
  let expectedVat := taxable * (vatRate / 100) in
  let vat_inconsistent :=
    Qgtb vatRate 0 && Qgtb taxable 0 && Qgtb (Qabs (expectedVat - vat)) 2 in
  let notes2 :=
    if vat_inconsistent then [VatInconsistentNote vatRate taxable expectedVat vat] else [] in
  mkVAT math_mismatch vat_inconsistent (notes1 ++ notes2).

Definition isAlnum (c : N) : bool := isLower c || isUpper c || isDigit c.

Definition checkRequiredFields (data : ProcessedInvoiceData) : bool * list jsstring :=
  let missing :=
    (if falsyStr (d_vendor_name_en data) then [u "vendor_name_en"] else [])
    ++ (if falsyStr (d_invoice_number_en data) then [u "invoice_number_en"] else [])
    ++ (match d_primary_date data with None => [u "primary_date"] | Some _ => [] end)
    ++ (match d_grand_total data with None => [u "grand_total"] | Some _ => [] end) in
  (negb (Nat.eqb (List.length missing) 0), missing).

Section WithCaseMapping.

Variable toLowerCase : jsstring -> jsstring.

Definition vendorNormalized (vendorNameEn : option jsstring) : jsstring :=
  match normalizeString vendorNameEn with
  | Some s => trim (toLowerCase s)
  | None => []
  end.

Definition invoiceNormalized (invoiceNumberEn : option jsstring) : jsstring :=
  match convertNepaliDigits invoiceNumberEn with
  | Some s => toLowerCase (removeClass (fun c => negb (isAlnum c)) s)
  | None => []
  end.

Definition generateMergeKey (workspaceId : jsstring)
    (vendorNameEn invoiceNumberEn primaryBsDate : option jsstring) : option jsstring :=
  if falsyStr (Some workspaceId) || falsyStr vendorNameEn
     || falsyStr invoiceNumberEn || falsyStr primaryBsDate
  then None else
  if falsyStr (Some (vendorNormalized vendorNameEn))
     || falsyStr (Some (invoiceNormalized invoiceNumberEn))
  then None else
  match primaryBsDate with
  | Some primaryBsDate =>
      Some (workspaceId ++ u "|" ++ vendorNormalized vendorNameEn ++ u "|"
              ++ invoiceNormalized invoiceNumberEn ++ u "|" ++ primaryBsDate)
  | None => None
  end.

Variable lib : NepaliDateLib.

Definition failedDate (rawText : jsstring) (cal : Calendar) (bs ad : jsstring) :=
  mkNormalizedDate rawText cal bs ad false.

Definition convertedDate (rawText : jsstring) (cal : Calendar) (c : ConvertedDate) :=
  mkNormalizedDate rawText cal (bsFormatted c) (adFormatted c) true.

Definition normalizeDateField (rawText : option jsstring)
    (calendarDetected : option Calendar) : option NormalizedDate :=
  match rawText with
  | None | Some [] => None
  | Some rawText =>
      let normalized :=
        match convertNepaliDigits (Some rawText) with
        | Some (c :: s) => c :: s
        | _ => rawText
        end in
      let calendar :=
        match calendarDetected with
        | Some c => Some c
        | None => detectCalendar lib normalized
        end in
      match calendar with
      | None =>
          match convertFromBS lib normalized with
          | Some bsAttempt => Some (convertedDate rawText BS bsAttempt)
          | None =>
              match convertFromAD lib normalized with
              | Some adAttempt => Some (convertedDate rawText AD adAttempt)
              | None => Some (failedDate rawText BS [] [])
              end
          end
      | Some BS =>
          match convertFromBS lib normalized with
          | None => Some (failedDate rawText BS normalized [])
          | Some converted => Some (convertedDate rawText BS converted)
          end
      | Some AD =>
          match convertFromAD lib normalized with
          | None => Some (failedDate rawText AD [] normalized)
          | Some converted => Some (convertedDate rawText AD converted)
          end
      end
  end.

(** [raw && (!date || !date.conversion_valid)] *)
Definition conversionFailed (raw : option jsstring) (date : option NormalizedDate) : bool :=
  negb (falsyStr raw)
  && match date with
     | None => true
     | Some d => negb (conversion_valid d)
     end.

Definition processGeminiExtraction (extraction : GeminiExtractionResponse)
    (workspaceId : jsstring) : InvoiceProcessingResult :=
  (* 1. dates *)
  let transactionDate :=
    normalizeDateField (transaction_date_raw extraction)
      (transaction_date_calendar extraction) in
  let billIssuingDate :=
    normalizeDateField (bill_issuing_date_raw extraction)
      (bill_issuing_date_calendar extraction) in
  let '(primaryDate, primaryDateSource) :=
    determinePrimaryDate transactionDate billIssuingDate in
  let tFailed := conversionFailed (transaction_date_raw extraction) transactionDate in
  let bFailed := conversionFailed (bill_issuing_date_raw extraction) billIssuingDate in
  let date_conversion_failed := tFailed || bFailed in
  let notes1 :=
    (if tFailed then [TransactionDateFailedNote] else [])
    ++ (if bFailed then [BillIssuingDateFailedNote] else []) in
  (* 2. vendor and invoice number *)
  let vendorNameEn := normalizeString (vendor_name_en extraction) in
  let invoiceNumberEn :=
    convertNepaliDigits (normalizeString (invoice_number_en extraction)) in
  (* 3. PAN *)
  let panValid := validatePAN (seller_pan extraction) in
  let notes3 :=
    match seller_pan extraction with
    | Some (c :: s) => if negb panValid then [InvalidPANNote (c :: s)] else []
    | _ => []
    end in
  (* 4. VAT *)
  let vatRate :=
    inferVATRate (vat_amount extraction) (taxable_amount extraction)
      (vat_rate extraction) in
  let isVatInvoice := Qgtb vatRate 0 in
  let vatValidation :=
    validateVAT (taxable_amount extraction) (vat_amount extraction)
      (grand_total extraction) vatRate in
  (* 5. processed data *)
  let primaryBsDate :=
    match primaryDate with
    | Some d => match bs_date d with [] => None | s => Some s end
    | None => None
    end in
  let mergeKey := generateMergeKey workspaceId vendorNameEn invoiceNumberEn primaryBsDate in
  let data :=
    mkData (vendor_name_raw extraction) vendorNameEn (seller_pan extraction) panValid
      (invoice_number_raw extraction) invoiceNumberEn
      transactionDate billIssuingDate primaryDate primaryDateSource
      (taxable_amount extraction) (vat_amount extraction) vatRate
      (grand_total extraction) isVatInvoice mergeKey in
  (* 6. required fields *)
  let '(missing_fields, missing) := checkRequiredFields data in
  let notes6 := if missing_fields then [MissingFieldsNote missing] else [] in
  (* 7. flags *)
  let flags :=
    mkFlags missing_fields (v_math_mismatch vatValidation)
      (v_vat_inconsistent vatValidation) date_conversion_failed false false
      (negb panValid && negb (falsyStr (seller_pan extraction)))
      (notes1 ++ notes3 ++ v_notes vatValidation ++ notes6) in
  (* 8. approval *)
  let canApprove :=
    negb missing_fields && negb (v_math_mismatch vatValidation)
    && negb date_conversion_failed in
  mkResult true data flags None canApprove.

End WithCaseMapping.

End InvoiceProcessing.

(* ------------------------------------------------------------------ *)
(** * A table-driven calendar *)
(* ------------------------------------------------------------------ *)

Module TableCalendar.

(** The first BS year of the table. *)
Definition START_YEAR : Z := 2081.

(** Modelled from the spec: the calendar library (the npm package
    nepali-date-converter with its day-count table) is not part of the
    repository.  The spec asks for a converter "backed by an explicit
    per-year, per-month day-count table" that fails "for out-of-range years
    or an invalid day-for-month combination".  This instance is such a
    converter over the two BS years around the spec's fixed reference,
    anchored at 2081/01/01 BS = 2024-04-13 AD; its month lengths agree with
    the known dates of scripts/benchmark-nepali-date.ts.  It serves the
    concrete runs; the general statements hold for every library. *)
Definition monthDays : list (list Z) :=
  [ [31; 31; 32; 32; 31; 30; 30; 30; 29; 30; 30; 30];
    [30; 32; 31; 32; 31; 30; 30; 30; 29; 30; 30; 30] ].

Definition EPOCH_DAY : Z := daysFromCivil 2024 4 13.

Fixpoint numbered {A} (i : Z) (l : list A) : list (Z * A) :=
  match l with
  | [] => []
  | x :: r => (i, x) :: numbered (i + 1) r
  end.

(** Every month of the table in order: (year, month index, days). *)
Definition months : list (Z * Z * Z) :=
  flat_map (fun '(y, row) => map (fun '(m, n) => (y, m, n)) (numbered 0 row))
    (numbered START_YEAR monthDays).

(** Days from the first day of the table to the given BS day, when the
    table has that day. *)
Fixpoint daysBefore (l : list (Z * Z * Z)) (y m0 d : Z) : option Z :=
  match l with
  | [] => None
  | (y', m', n) :: r =>
      if (y' =? y) && (m' =? m0)
      then (if (1 <=? d) && (d <=? n) then Some (d - 1) else None)
      else option_map (Z.add n) (daysBefore r y m0 d)
  end.

(** The BS day that lies [off] days after the first day of the table. *)
Fixpoint dayAt (l : list (Z * Z * Z)) (off : Z) : option YMD :=
  match l with
  | [] => None
  | (y, m, n) :: r =>
      if off <? n then Some (mkYMD y m (off + 1)) else dayAt r (off - n)
  end.

Record TableDate := mkTableDate { td_bs : YMD; td_day : Z }.

Definition fromBS (y m0 d : option Z) : option TableDate :=
  match y, m0, d with
  | Some y, Some m0, Some d =>
      match daysBefore months y m0 d with
      | Some off => Some (mkTableDate (mkYMD y m0 d) (EPOCH_DAY + off))
      | None => None
      end
  | _, _, _ => None
  end.

Definition fromDate (date : Date) : option TableDate :=
  match date with
  | InvalidDate => None
  | DateAt n =>
      if n <? EPOCH_DAY then None else
      match dayAt months (n - EPOCH_DAY) with
      | Some bs => Some (mkTableDate bs n)
      | None => None
      end
  end.

Definition toAD (t : TableDate) : YMD :=
  mkYMD (getFullYear (td_day t)) (getMonth (td_day t)) (getDate (td_day t)).

Definition tableLib : NepaliDateLib :=
  mkLib TableDate fromBS fromDate toAD td_bs.

End TableCalendar.

Import TableCalendar.

(* ------------------------------------------------------------------ *)
(** * Vocabulary of the statements *)
(* ------------------------------------------------------------------ *)

(** The two decimal digits of a number below 100. *)
Definition twoDigits (n : Z) : jsstring :=
  [Z.to_N (48 + n / 10); Z.to_N (48 + n mod 10)].

(** A flag set with its two soft flags replaced. *)
Definition withSoftFlags {note} (f : InvoiceValidationFlags note)
    (vatInconsistent panInvalid : bool) : InvoiceValidationFlags note :=
  mkFlags (missing_fields f) (math_mismatch f) vatInconsistent
    (date_conversion_failed f) (date_mismatch f) (duplicate_invoice f)
    panInvalid (notes f).

Section AmountVocabulary.

Local Open Scope Q_scope.

(** A missing amount read as 0. *)
Definition valueOr0 (x : amount) : Q :=
  match x with Some q => q | None => 0 end.

Definition validRate (e : amount) : Prop :=
  exists r, e = Some r /\ (r == 0 \/ r == 13).

Definition absentOrZero (v : amount) : Prop :=
  v = None \/ exists q, v = Some q /\ q == 0.

(** What both rate inferences compute: the valid explicit rate, else 0
    without VAT, else 13. *)
Definition rateSpec (vat explicit : amount) (result : Q) : Prop :=
  (forall r, explicit = Some r -> r == 0 \/ r == 13 -> result = r)
  /\ (~ validRate explicit -> absentOrZero vat -> result = 0)
  /\ (~ validRate explicit -> ~ absentOrZero vat -> result = 13).

(** An extraction with the given amounts, everything else in order, and the
    pipeline run on it with the ASCII case mapping and the table calendar. *)
Definition extractionOf (taxable vat rate total : amount) : GeminiExtractionResponse :=
  mkExtraction (Some (u "Acme Traders")) (Some (u "Acme Traders")) None
    (Some (u "INV001")) (Some (u "INV001"))
    (Some (u "2082/09/07")) (Some BS) None None
    taxable vat rate total.

Definition run (e : GeminiExtractionResponse) : InvoiceProcessing.InvoiceProcessingResult :=
  InvoiceProcessing.processGeminiExtraction Normalization.asciiToLowerCase
    tableLib e (u "ws1").

End AmountVocabulary.

(** A string that is null or empty. *)
Definition nullOrEmpty (s : option jsstring) : Prop := s = None \/ s = Some [].

(** The four components joined by a vertical bar. *)
Definition joined (ws vendor inv date : jsstring) : jsstring :=
  ws ++ u "|" ++ vendor ++ u "|" ++ inv ++ u "|" ++ date.

(** ASCII code units, and those that are not the hyphen. *)
Definition isAscii (c : N) : bool := (c <? 128)%N.
Definition isAsciiNotHyphen (c : N) : bool := isAscii c && negb (c =? 45)%N.

(* ------------------------------------------------------------------ *)
(** * src/lib/nepaliCalendar.ts: validity and the days of a month *)
(* ------------------------------------------------------------------ *)

(** The constructor of the library run in a [try]. *)
Definition isValidBSDate (lib : NepaliDateLib) (bs : BSDate) : bool :=
  match newFromBS lib (Some (bs_year bs)) (Some (bs_month bs - 1)) (Some (bs_day bs)) with
  | Some _ => true
  | None => false
  end.

Section DaysInMonth.

Variable lib : NepaliDateLib.

(** One turn of the loop of [getDaysInBSMonth]: the library builds the date
    and [np.getDate()], the day of the month it holds, is the day asked for. *)
Definition keepsDay (year month day : Z) : bool :=
  match newFromBS lib (Some year) (Some (month - 1)) (Some day) with
  | Some np => ymd_date (getBS lib np) =? day
  | None => false
  end.

Definition getDaysInBSMonth (year month : Z) : Z :=
  match find (keepsDay year month) [32; 31; 30; 29; 28] with
  | Some day => day
  | None => 30
  end.

End DaysInMonth.

(* ------------------------------------------------------------------ *)
(** * The date checks, the field normalizers and the export *)
(* ------------------------------------------------------------------ *)

(** The two date checks of the validation module. *)
Module ValidationDates.

Inductive DateNote :=
| ConversionFailedNote (rawDate : jsstring)
| InvalidFormatNote (bsDate : jsstring)
| OutsideRangeNote (year : Z).

Definition validateDateConversion (rawDate bsDate adDate : option jsstring)
    : bool * option DateNote :=
  match rawDate with
  | None | Some [] => (true, None)
  | Some raw =>
      if falsyStr bsDate || falsyStr adDate
      then (false, Some (ConversionFailedNote raw))
      else (true, None)
  end.

(** [s.match(/^(\d{4})/)]: the first group. *)
Definition matchLeadingYear (s : jsstring) : option jsstring :=
  match s with
  | a :: b :: c :: d :: _ =>
      if isDigit a && isDigit b && isDigit c && isDigit d
      then Some [a; b; c; d] else None
  | _ => None
  end.

Definition validateDateRange (bsDate : option jsstring) : bool * option DateNote :=
  match bsDate with
  | None | Some [] => (true, None)
  | Some s =>
      match matchLeadingYear s with
      | None => (false, Some (InvalidFormatNote s))
      | Some m =>
          match parseInt m with
          | Some year =>
              if (year <? 2070) || (2095 <? year)
              then (false, Some (OutsideRangeNote year))
              else (true, None)
          | None => (true, None)
          end
      end
  end.

End ValidationDates.

(** The normalizers of single fields: digits for display, PAN, date string. *)
Module NormalizationFields.

Import Normalization.

Definition toNepaliDigit (c : N) : N :=
  if isDigit c then (c - 48 + 2406)%N else c.

Definition convertToNepaliDigits (input : option jsstring) : option jsstring :=
  match input with
  | None | Some [] => None
  | Some s => Some (map toNepaliDigit s)
  end.

Record PANNormalized := mkPANNormalized {
  normalized : option jsstring;
  isValid : bool
}.

Definition normalizePAN (input : option jsstring) : PANNormalized :=
  if falsyStr input then mkPANNormalized None false else
  let digits :=
    match convertNepaliDigits input with
    | Some s => removeClass (fun c => negb (isDigit c)) s
    | None => []
    end in
  mkPANNormalized (match digits with [] => None | _ => Some digits end)
    (Nat.eqb (List.length digits) 9).

(** [\d{1,2}], greedy: the digits taken and the rest.  Taking one digit when
    two are there never helps the rest of the pattern, which cannot start at
    a digit. *)
Definition digits12 (s : jsstring) : option (jsstring * jsstring) :=
  match s with
  | a :: rest =>
      if isDigit a then
        match rest with
        | b :: rest' => if isDigit b then Some ([a; b], rest') else Some ([a], rest)
        | [] => Some ([a], [])
        end
      else None
  | [] => None
  end.

(** [\s*\/\s*]: what follows it. *)
Definition slashBetweenSpaces (s : jsstring) : option jsstring :=
  match dropWhile isWhiteSpace s with
  | c :: rest => if (c =? 47)%N then Some (dropWhile isWhiteSpace rest) else None
  | [] => None
  end.

(** [(\d{4})\s*\/\s*(\d{1,2})\s*\/\s*(\d{1,2})] at the start of [s]. *)
Definition matchDateAt (s : jsstring) : option (jsstring * jsstring * jsstring) :=
  match s with
  | a :: b :: c :: d :: r0 =>
      if isDigit a && isDigit b && isDigit c && isDigit d then
        match slashBetweenSpaces r0 with
        | Some r1 =>
            match digits12 r1 with
            | Some (m, r2) =>
                match slashBetweenSpaces r2 with
                | Some r3 =>
                    match digits12 r3 with
                    | Some (dd, _) => Some ([a; b; c; d], m, dd)
                    | None => None
                    end
                | None => None
                end
            | None => None
            end
        | None => None
        end
      else None
  | _ => None
  end.

(** [str.match(...)]: the leftmost place where the pattern matches. *)
Fixpoint matchDate (s : jsstring) : option (jsstring * jsstring * jsstring) :=
  match matchDateAt s with
  | Some r => Some r
  | None => match s with [] => None | _ :: t => matchDate t end
  end.

(** [String(n)] of a number that may be [NaN]. *)
Definition showNumber (n : option Z) : jsstring :=
  match n with Some v => numberToString v | None => u "NaN" end.

(** [n < lo || n > hi], false on [NaN]. *)
Definition outside (lo hi : Z) (n : option Z) : bool :=
  match n with Some v => (v <? lo) || (hi <? v) | None => false end.

Definition normalizeDateString (input : option jsstring) : option jsstring :=
  if falsyStr input then None
  else
    match convertNepaliDigits input with
    | None | Some [] => None
    | Some str =>
        let str := replaceClass isDotOrHyphen 47%N str in
        match matchDate str with
        | None => None
        | Some (y, m, d) =>
            let year := parseInt y in
            let month := parseInt m in
            let day := parseInt d in
            if outside 1 12 month || outside 1 32 day then None
            else Some (showNumber year ++ u "/"
                         ++ padStart 2 48%N (showNumber month) ++ u "/"
                         ++ padStart 2 48%N (showNumber day))
        end
    end.

End NormalizationFields.

(** The export module: the fiscal year read from a BS date string, and the
    escaping of a CSV field. *)
Module InvoiceExport.

(** [s.match(/^(\d{4})\/(\d{2})/)]: the two groups. *)
Definition matchYearMonth (s : jsstring) : option (jsstring * jsstring) :=
  match s with
  | a :: b :: c :: d :: sl :: m1 :: m2 :: _ =>
      if isDigit a && isDigit b && isDigit c && isDigit d
         && (sl =? 47)%N && isDigit m1 && isDigit m2
      then Some ([a; b; c; d], [m1; m2]) else None
  | _ => None
  end.

Definition getFiscalYear (bsDate : option jsstring) : option jsstring :=
  match bsDate with
  | None | Some [] => None
  | Some s =>
      match matchYearMonth s with
      | None => None
      | Some (y, m) =>
          match parseInt y, parseInt m with
          | Some year, Some month =>
              if 4 <=? month
              then Some (numberToString year ++ u "/"
                           ++ numberToString (Z.rem (year + 1) 100))
              else Some (numberToString (year - 1) ++ u "/"
                           ++ numberToString (Z.rem year 100))
          | _, _ => Some (u "NaN/NaN")
          end
      end
  end.

(** [value.includes(c)] for a one-unit string. *)
Definition includes (c : N) (s : jsstring) : bool := existsb (N.eqb c) s.

(** [value.replace] of every quotation mark (unit 34) by two. *)
Definition doubleQuotes (s : jsstring) : jsstring :=
  flat_map (fun c => if (c =? 34)%N then [34%N; 34%N] else [c]) s.

Definition escapeCSV (value : jsstring) : jsstring :=
  if includes 44%N value || includes 34%N value || includes 10%N value
  then 34%N :: doubleQuotes value ++ [34%N]
  else value.

End InvoiceExport.

(* ------------------------------------------------------------------ *)
(** * Vocabulary of the statements on these functions *)
(* ------------------------------------------------------------------ *)

(** The code units of a decimal numeral. *)
Fixpoint uintCodes (d : Decimal.uint) : jsstring :=
  match d with
  | Decimal.Nil => []
  | Decimal.D0 d => 48%N :: uintCodes d
  | Decimal.D1 d => 49%N :: uintCodes d
  | Decimal.D2 d => 50%N :: uintCodes d
  | Decimal.D3 d => 51%N :: uintCodes d
  | Decimal.D4 d => 52%N :: uintCodes d
  | Decimal.D5 d => 53%N :: uintCodes d
  | Decimal.D6 d => 54%N :: uintCodes d
  | Decimal.D7 d => 55%N :: uintCodes d
  | Decimal.D8 d => 56%N :: uintCodes d
  | Decimal.D9 d => 57%N :: uintCodes d
  end.

(** One step of [digitsValue]. *)
Definition digitStep (acc : Z) (c : N) : Z := 10 * acc + (Z.of_N c - 48).

(** The sign that [parseInt] reads and what follows it. *)
Definition signSplit (s1 : jsstring) : Z * jsstring :=
  match s1 with
  | [] => (1, s1)
  | c :: r => if (c =? 45)%N then (-1, r) else if (c =? 43)%N then (1, r) else (1, s1)
  end.

(** A unit of a printed date: a digit or the separator. *)
Definition isDateUnit (sep c : N) : bool := isDigit c || (c =? sep)%N.

(** A code unit that is no decimal digit. *)
Definition notDigit (c : N) : Prop := (c < 48 \/ 57 < c)%N.

(** The printed form "year sep month sep day". *)
Definition printed (sep : N) (y m d : Z) : jsstring :=
  numberToString y ++ [sep] ++ pad2 m ++ [sep] ++ pad2 d.

(** A Devanagari digit. *)
Definition isNepaliDigitUnit (c : N) : bool := ((2406 <=? c) && (c <=? 2415))%N.

(** No two spaces in a row. *)
Fixpoint noAdjacentSpaces (s : jsstring) : bool :=
  match s with
  | a :: r =>
      match r with
      | b :: _ => negb ((a =? 32) && (b =? 32))%N
      | [] => true
      end && noAdjacentSpaces r
  | [] => true
  end.

(** Every white-space unit is the plain space. *)
Definition spacesOnly (s : jsstring) : bool :=
  forallb (fun c => negb (isWhiteSpace c) || (c =? 32)%N) s.

(** No control character. *)
Definition noControl (s : jsstring) : bool :=
  forallb (fun c => negb (Normalization.isControl c)) s.

(** A decimal digit of either script. *)
Definition isAnyDigit (c : N) : bool := isDigit c || isNepaliDigitUnit c.

(** The text the conversions are run on: the raw text with its digits
    converted. *)
Definition digitsConverted (rawText : jsstring) : jsstring :=
  map Normalization.nepaliDigit rawText.

(** The code unit of the digit [k]. *)
Definition digitCode (k : Z) : N := Z.to_N (48 + k).

(** The decimal digits of a number below 10000. *)
Definition yearShape (y : Z) : jsstring :=
  if y <? 10 then [digitCode y]
  else if y <? 100 then [digitCode (y / 10); digitCode (y mod 10)]
  else if y <? 1000 then
    [digitCode (y / 100); digitCode (y / 10 mod 10); digitCode (y mod 10)]
  else [digitCode (y / 1000); digitCode (y / 100 mod 10);
        digitCode (y / 10 mod 10); digitCode (y mod 10)].

(** Equality of two strings, as a boolean. *)
Definition jsstring_eqb (a b : jsstring) : bool :=
  if list_eq_dec N.eq_dec a b then true else false.

(** The last two digits the fiscal year ends with. *)
Definition fiscalEnd (bs : BSDate) : Z :=
  if 4 <=? bs_month bs then (bs_year bs + 1) mod 100 else bs_year bs mod 100.

(** The result of [normalizeDateString] once the search has run. *)
Definition normalizeMatched (str : jsstring) : option jsstring :=
  match NormalizationFields.matchDate str with
  | None => None
  | Some (y, m, d) =>
      if NormalizationFields.outside 1 12 (parseInt m)
         || NormalizationFields.outside 1 32 (parseInt d)
      then None
      else Some (NormalizationFields.showNumber (parseInt y) ++ u "/"
                   ++ padStart 2 48%N (NormalizationFields.showNumber (parseInt m))
                   ++ u "/"
                   ++ padStart 2 48%N (NormalizationFields.showNumber (parseInt d)))
  end.

(* ------------------------------------------------------------------ *)
(** * Properties: the fiscal year *)
(* ------------------------------------------------------------------ *)

Lemma pad2_twoDigits (n : Z) :
  0 <= n < 100 -> padStart 2 48%N (numberToString n) = twoDigits n.
Proof.
  intros Hn.
  assert (Hk : exists k : nat, n = Z.of_nat k /\ (k < 100)%nat).
  { exists (Z.to_nat n). lia. }
  destruct Hk as [k [-> Hk]].
  do 100 (destruct k as [|k]; [vm_compute; reflexivity|]).
  lia.
Qed.

(** C9. getFiscalYear returns "{year}/{(year+1) mod 100}" when month >= 4 and
    "{year-1}/{year mod 100}" when month < 4, the second component padded
    with zeros to two characters; for a year from 0 on that component is
    exactly the two decimal digits of the remainder.  In particular
    2082/9/7 gives "2082/83" and 2082/2/15 gives "2081/82". *)
Theorem getFiscalYear_spec (bs : BSDate) :
  (4 <= bs_month bs ->
     getFiscalYear bs =
       numberToString (bs_year bs) ++ u "/"
         ++ padStart 2 48%N (numberToString (Z.rem (bs_year bs + 1) 100))
     /\ (0 <= bs_year bs ->
         getFiscalYear bs =
           numberToString (bs_year bs) ++ u "/" ++ twoDigits ((bs_year bs + 1) mod 100)))
  /\ (bs_month bs < 4 ->
     getFiscalYear bs =
       numberToString (bs_year bs - 1) ++ u "/"
         ++ padStart 2 48%N (numberToString (Z.rem (bs_year bs) 100))
     /\ (0 <= bs_year bs ->
         getFiscalYear bs =
           numberToString (bs_year bs - 1) ++ u "/" ++ twoDigits (bs_year bs mod 100)))
  /\ getFiscalYear (mkBS 2082 9 7) = u "2082/83"
  /\ getFiscalYear (mkBS 2082 2 15) = u "2081/82".
Proof.
  unfold getFiscalYear.
  split; [|split; [|split; reflexivity]].
  - intros H. apply Z.leb_le in H. rewrite H. split; [reflexivity|].
    intros Hy. rewrite Z.rem_mod_nonneg by lia.
    rewrite pad2_twoDigits; [reflexivity|].
    apply Z.mod_pos_bound; lia.
  - intros H. apply Z.leb_gt in H. rewrite H. split; [reflexivity|].
    intros Hy. rewrite Z.rem_mod_nonneg by lia.
    rewrite pad2_twoDigits; [reflexivity|].
    apply Z.mod_pos_bound; lia.
Qed.

(* ------------------------------------------------------------------ *)
(** * Properties: the approval gate *)
(* ------------------------------------------------------------------ *)

Lemma canAutoApprove_iff {note} (f : InvoiceValidationFlags note) :
  Validation.canAutoApprove f = true <->
  missing_fields f = false /\ math_mismatch f = false
  /\ date_conversion_failed f = false.
Proof.
  unfold Validation.canAutoApprove.
  rewrite !andb_true_iff, !negb_true_iff. tauto.
Qed.

Lemma destruct_pair_let {A B C} (p : A * B) (k : A -> B -> C) :
  (let '(a, b) := p in k a b) = k (fst p) (snd p).
Proof. destruct p; reflexivity. Qed.

(** C4. The approval gate grants approval exactly when missing_fields,
    math_mismatch and date_conversion_failed are all false; vat_inconsistent
    and pan_invalid never change the decision; and the can_approve field the
    pipeline returns is the gate applied to the flags it returns. *)
Theorem approval_gate :
  (forall note (f : InvoiceValidationFlags note),
     Validation.canAutoApprove f = true <->
     missing_fields f = false /\ math_mismatch f = false
     /\ date_conversion_failed f = false)
  /\ (forall note (f : InvoiceValidationFlags note) v p,
     Validation.canAutoApprove (withSoftFlags f v p) = Validation.canAutoApprove f)
  /\ (forall toLowerCase lib extraction workspaceId,
     let r := InvoiceProcessing.processGeminiExtraction toLowerCase lib
                extraction workspaceId in
     InvoiceProcessing.can_approve r
       = Validation.canAutoApprove (InvoiceProcessing.flags r)
     /\ (InvoiceProcessing.can_approve r = true <->
         missing_fields (InvoiceProcessing.flags r) = false
         /\ math_mismatch (InvoiceProcessing.flags r) = false
         /\ date_conversion_failed (InvoiceProcessing.flags r) = false)).
Proof.
  split; [|split].
  - intros note f. apply canAutoApprove_iff.
  - intros note f v p. reflexivity.
  - intros toLowerCase lib extraction workspaceId r.
    assert (E : InvoiceProcessing.can_approve r
                = Validation.canAutoApprove (InvoiceProcessing.flags r)).
    { subst r. unfold InvoiceProcessing.processGeminiExtraction.
      rewrite !destruct_pair_let. reflexivity. }
    split; [exact E|]. rewrite E. apply canAutoApprove_iff.
Qed.

(* ------------------------------------------------------------------ *)
(** * Properties: VAT rate inference *)
(* ------------------------------------------------------------------ *)

Section Amounts.

Local Open Scope Q_scope.

Lemma isZero_iff (q : Q) : isZero q = true <-> q == 0.
Proof. apply Qeq_bool_iff. Qed.

Lemma falsyNum_iff (v : amount) : falsyNum v = true <-> absentOrZero v.
Proof.
  unfold absentOrZero. destruct v as [q|]; simpl.
  - rewrite isZero_iff. split.
    + intros H. right. exists q. split; [reflexivity | exact H].
    + intros [H | [q' [E H]]]; [discriminate | congruence].
  - split; [intros _; left; reflexivity | reflexivity].
Qed.

Lemma orZero_valueOr0 (x : amount) : orZero x == valueOr0 x.
Proof.
  destruct x as [q|]; simpl; [|reflexivity].
  destruct (isZero q) eqn:E; [|reflexivity].
  apply isZero_iff in E. symmetry. exact E.
Qed.

Lemma Qgtb_iff (a b : Q) : Qgtb a b = true <-> b < a.
Proof.
  unfold Qgtb. rewrite negb_true_iff. split.
  - intros H. apply Qnot_le_lt. intros L. apply Qle_bool_iff in L. congruence.
  - intros H. destruct (Qle_bool a b) eqn:E; [|reflexivity].
    apply Qle_bool_iff in E. exfalso. exact (Qlt_not_le _ _ H E).
Qed.

Lemma rateSpec_intro (vat explicit : amount) (valid : Q -> bool) (inferred : Q) :
  (forall r, valid r = true <-> r == 0 \/ r == 13) ->
  inferred = (if falsyNum vat then 0 else 13) ->
  rateSpec vat explicit
    match explicit with
    | Some r => if valid r then r else inferred
    | None => inferred
    end.
Proof.
  intros Hvalid ->.
  assert (Hinf : ~ validRate explicit ->
                 match explicit with
                 | Some r => if valid r then r else if falsyNum vat then 0 else 13
                 | None => if falsyNum vat then 0 else 13
                 end = if falsyNum vat then 0 else 13).
  { intros Hn. destruct explicit as [r|]; [|reflexivity].
    destruct (valid r) eqn:E; [|reflexivity].
    exfalso. apply Hn. exists r. split; [reflexivity|]. apply Hvalid, E. }
  repeat split.
  - intros r -> Hr. apply Hvalid in Hr. rewrite Hr. reflexivity.
  - intros Hn Hv. rewrite (Hinf Hn). apply falsyNum_iff in Hv. rewrite Hv. reflexivity.
  - intros Hn Hv. rewrite (Hinf Hn).
    destruct (falsyNum vat) eqn:E; [|reflexivity].
    exfalso. apply Hv, falsyNum_iff, E.
Qed.

(** C5. inferVatRate returns the explicit rate when it is 0 or 13; otherwise
    0 when the VAT amount is null or zero; otherwise 13, whether or not the
    implied rate is within 1 of 13.  The same holds for inferVATRate of the
    pipeline.  In particular inferVatRate(1000, 130, null) = 13. *)
Theorem inferVatRate_spec (taxable vat explicit : amount) :
  rateSpec vat explicit (Validation.inferVatRate taxable vat explicit)
  /\ rateSpec vat explicit (InvoiceProcessing.inferVATRate vat taxable explicit)
  /\ Validation.inferVatRate (Some 1000) (Some 130) None = 13
  /\ InvoiceProcessing.inferVATRate (Some 130) (Some 1000) None = 13.
Proof.
  split; [|split; [|split; reflexivity]].
  - unfold Validation.inferVatRate. apply rateSpec_intro.
    + intros r. unfold Validation.VALID_VAT_RATES. simpl.
      rewrite !orb_true_iff, !Qeq_bool_iff. intuition discriminate.
    + destruct (falsyNum vat); [reflexivity|].
      match goal with |- (if ?c then _ else _) = _ => destruct c; reflexivity end.
  - unfold InvoiceProcessing.inferVATRate. apply rateSpec_intro.
    + intros r. rewrite orb_true_iff, !Qeq_bool_iff. reflexivity.
    + destruct (falsyNum vat); [reflexivity|].
      match goal with |- (if ?c then _ else _) = _ => destruct c; reflexivity end.
Qed.

(* ------------------------------------------------------------------ *)
(** * Properties: the math and VAT checks *)
(* ------------------------------------------------------------------ *)



(** The standalone VAT check: inconsistent exactly when rate and taxable
    are present and not zero, VAT is present, and the difference exceeds
    the tolerance. *)
Lemma checkVatInconsistent_iff (taxable vat rate : amount) :
  fst (Validation.checkVatInconsistent taxable vat rate) = true <->
  exists r t v, rate = Some r /\ taxable = Some t /\ vat = Some v
    /\ ~ r == 0 /\ ~ t == 0 /\ 2 < Qabs (t * (r / 100) - v).
Proof.
  unfold Validation.checkVatInconsistent, Validation.checkVatInconsistentTol,
    Validation.AMOUNT_TOLERANCE.
  split.
  - destruct rate as [r|]; [|discriminate].
    destruct (isZero r) eqn:Er; [discriminate|].
    destruct taxable as [t|]; [|discriminate].
    destruct (isZero t) eqn:Et; [discriminate|].
    destruct vat as [v|]; [|discriminate].
    destruct (Qgtb _ _) eqn:E; [|discriminate].
    intros _. exists r, t, v. repeat split.
    + rewrite <- isZero_iff. congruence.
    + rewrite <- isZero_iff. congruence.
    + apply Qgtb_iff, E.
  - intros [r [t [v [-> [-> [-> [Hr [Ht H]]]]]]]].
    destruct (isZero r) eqn:Er; [apply isZero_iff in Er; contradiction|].
    destruct (isZero t) eqn:Et; [apply isZero_iff in Et; contradiction|].
    apply Qgtb_iff in H. rewrite H. reflexivity.
Qed.

(** The pipeline's VAT check reads a missing VAT amount as 0. *)
Lemma validateVAT_vat_iff (taxable vat total : amount) (rate : Q) :
  InvoiceProcessing.v_vat_inconsistent
    (InvoiceProcessing.validateVAT taxable vat total rate) = true <->
  0 < rate /\ 0 < valueOr0 taxable
  /\ 2 < Qabs (valueOr0 taxable * (rate / 100) - valueOr0 vat).
Proof.
  unfold InvoiceProcessing.validateVAT. cbv zeta.
  cbv [InvoiceProcessing.v_vat_inconsistent].
  pose proof (orZero_valueOr0 taxable) as Ht.
  pose proof (orZero_valueOr0 vat) as Hv.
  set (t0 := orZero taxable) in *. set (v0 := orZero vat) in *.
  rewrite !andb_true_iff, !Qgtb_iff, Ht, Hv. tauto.
Qed.

End Amounts.

(* ------------------------------------------------------------------ *)
(** * Concrete runs of the validation paths *)
(* ------------------------------------------------------------------ *)

Section Runs.

Local Open Scope Q_scope.

(** C3. The standalone checkMathMismatch reports no mismatch without a grand
    total, but validateVAT of the pipeline reads the missing total as 0: for
    taxable 1000, VAT 130 and no total it sets math_mismatch, and so does the
    flag set the pipeline returns. *)
Theorem validateVAT_mismatch_without_total :
  fst (Validation.checkMathMismatch (Some 1000) (Some 130) None) = false
  /\ InvoiceProcessing.v_math_mismatch
       (InvoiceProcessing.validateVAT (Some 1000) (Some 130) None 13) = true
  /\ math_mismatch
       (InvoiceProcessing.flags
          (run (extractionOf (Some 1000) (Some 130) (Some 13) None))) = true.
Proof. repeat split; vm_compute; reflexivity. Qed.

(** C6. The standalone checkVatInconsistent skips the check without a VAT
    amount, but validateVAT of the pipeline reads the missing VAT as 0: for
    taxable 1000, rate 13 and no VAT it sets vat_inconsistent, and so does
    the flag set the pipeline returns.  The standalone check itself tests for
    a non-zero taxable amount, not a positive one. *)
Theorem validateVAT_inconsistent_without_vat :
  fst (Validation.checkVatInconsistent (Some 1000) None (Some 13)) = false
  /\ InvoiceProcessing.v_vat_inconsistent
       (InvoiceProcessing.validateVAT (Some 1000) None (Some 1000) 13) = true
  /\ vat_inconsistent
       (InvoiceProcessing.flags
          (run (extractionOf (Some 1000) None (Some 13) (Some 1000)))) = true
  /\ fst (Validation.checkVatInconsistent (Some (-1000)) (Some 0) (Some 13)) = true.
Proof. repeat split; vm_compute; reflexivity. Qed.

End Runs.

(* ------------------------------------------------------------------ *)
(** * Properties: the calendar conversions *)
(* ------------------------------------------------------------------ *)

(** [new Date(2025, 1, 30)] is March 2nd, 2025. *)
Lemma newDate_feb30 : newDate 2025 1 30 = newDate 2025 2 2.
Proof. reflexivity. Qed.

Lemma adToBs_feb30 (lib : NepaliDateLib) :
  adToBs lib (mkAD 2025 2 30) = adToBs lib (mkAD 2025 3 2).
Proof.
  unfold adToBs.
  change (newDate (ad_year (mkAD 2025 2 30)) (ad_month (mkAD 2025 2 30) - 1)
            (ad_day (mkAD 2025 2 30)))
    with (newDate 2025 1 30).
  rewrite newDate_feb30. reflexivity.
Qed.

(** C7. adToBs does not return null for February 30th: whatever the calendar
    library, it returns what it returns for March 2nd; with the table
    calendar that is 2081/11/18, and convertFromAD accepts "2025-02-30". *)
Theorem adToBs_accepts_nonexistent_day :
  (forall lib, adToBs lib (mkAD 2025 2 30) = adToBs lib (mkAD 2025 3 2))
  /\ adToBs tableLib (mkAD 2025 2 30) = Some (mkBS 2081 11 18)
  /\ convertFromAD tableLib (u "2025-02-30")
     = Some (mkConverted (mkBS 2081 11 18) (mkAD 2025 2 30)
               (u "2081/11/18") (u "2025-02-30")).
Proof.
  split; [exact adToBs_feb30|]. split; vm_compute; reflexivity.
Qed.

(** C1. The AD round trip fails on February 30th, 2025: a library that
    round-trips March 2nd, 2025 gives the same non-null BS date for February
    30th, and bsToAd takes it back to March 2nd, not to the input; the table
    calendar is such a library. *)
Theorem roundtrip_AD_fails_on_rollover :
  (forall lib bs,
     adToBs lib (mkAD 2025 3 2) = Some bs ->
     bsToAd lib bs = Some (mkAD 2025 3 2) ->
     adToBs lib (mkAD 2025 2 30) = Some bs
     /\ bsToAd lib bs <> Some (mkAD 2025 2 30))
  /\ (exists bs,
     adToBs tableLib (mkAD 2025 2 30) = Some bs
     /\ bsToAd tableLib bs = Some (mkAD 2025 3 2)).
Proof.
  split.
  - intros lib bs H1 H2. rewrite adToBs_feb30. split; [exact H1|].
    rewrite H2. discriminate.
  - exists (mkBS 2081 11 18). split; vm_compute; reflexivity.
Qed.

Section Reference.

Variable lib : NepaliDateLib.

(** The library's conversion of the reference date, in both directions
    (the known dates of scripts/benchmark-nepali-date.ts). *)
Hypothesis reference_bs :
  exists np, newFromBS lib (Some 2082) (Some 8) (Some 7) = Some np
             /\ getAD lib np = mkYMD 2025 11 22.
Hypothesis reference_ad :
  exists np, newFromDate lib (newDate 2025 11 22) = Some np
             /\ getBS lib np = mkYMD 2082 8 7.

(** C8. The BS string "2082/09/07" converts to the AD string "2025-12-22"
    and the AD string "2025-12-22" to the BS string "2082/09/07", given the
    library's conversion of that one date. *)
Theorem convert_reference :
  convertFromBS lib (u "2082/09/07")
  = Some (mkConverted (mkBS 2082 9 7) (mkAD 2025 12 22)
            (u "2082/09/07") (u "2025-12-22"))
  /\ convertFromAD lib (u "2025-12-22")
     = Some (mkConverted (mkBS 2082 9 7) (mkAD 2025 12 22)
               (u "2082/09/07") (u "2025-12-22")).
Proof.
  destruct reference_bs as [np [Hnp Had]].
  destruct reference_ad as [np' [Hnp' Hbs]].
  split.
  - unfold convertFromBS.
    change (parseBSDate (u "2082/09/07")) with (Some (mkBS 2082 9 7)).
    unfold bsToAd.
    change (newFromBS lib (Some (bs_year (mkBS 2082 9 7)))
              (Some (bs_month (mkBS 2082 9 7) - 1)) (Some (bs_day (mkBS 2082 9 7))))
      with (newFromBS lib (Some 2082) (Some 8) (Some 7)).
    rewrite Hnp. cbv zeta. rewrite Had. reflexivity.
  - unfold convertFromAD.
    change (parseADDate (u "2025-12-22")) with (Some (mkAD 2025 12 22)).
    unfold adToBs.
    change (newDate (ad_year (mkAD 2025 12 22)) (ad_month (mkAD 2025 12 22) - 1)
              (ad_day (mkAD 2025 12 22)))
      with (newDate 2025 11 22).
    rewrite Hnp'. cbv zeta. rewrite Hbs. reflexivity.
Qed.

End Reference.

Lemma convert_reference_witness :
  convertFromBS tableLib (u "2082/09/07")
  = Some (mkConverted (mkBS 2082 9 7) (mkAD 2025 12 22)
            (u "2082/09/07") (u "2025-12-22"))
  /\ convertFromAD tableLib (u "2025-12-22")
     = Some (mkConverted (mkBS 2082 9 7) (mkAD 2025 12 22)
               (u "2082/09/07") (u "2025-12-22")).
Proof.
  apply (convert_reference tableLib).
  - eexists. split; reflexivity.
  - eexists. split; reflexivity.
Defined.

(* ------------------------------------------------------------------ *)
(** * Properties: the merge key *)
(* ------------------------------------------------------------------ *)

Section MergeKey.

Import Normalization.

Lemma falsyStr_iff (s : option jsstring) : falsyStr s = true <-> nullOrEmpty s.
Proof.
  unfold nullOrEmpty.
  destruct s as [[|c s]|]; simpl; split; intros H; auto; try discriminate;
    destruct H; discriminate.
Qed.

Variable toLowerCase : jsstring -> jsstring.

Lemma mergeKeyA_cases (ws : jsstring) (v i d : option jsstring) :
  let vA := InvoiceProcessing.vendorNormalized toLowerCase v in
  let iA := InvoiceProcessing.invoiceNormalized toLowerCase i in
  InvoiceProcessing.generateMergeKey toLowerCase ws v i d =
    match ws, v, i, d, vA, iA with
    | _ :: _, Some (_ :: _), Some (_ :: _), Some (c :: date), _ :: _, _ :: _ =>
        Some (joined ws vA iA (c :: date))
    | _, _, _, _, _, _ => None
    end.
Proof.
  intros vA iA. unfold InvoiceProcessing.generateMergeKey. fold vA iA.
  destruct ws as [|w ws]; [reflexivity|].
  destruct v as [[|cv v]|]; try reflexivity.
  destruct i as [[|ci i]|]; try reflexivity.
  destruct d as [[|cd d]|]; try reflexivity.
  destruct vA; [reflexivity|]. destruct iA; reflexivity.
Qed.

Lemma mergeKeyB_cases (ws : jsstring) (v i d : option jsstring) :
  let vB := normalizeVendorName toLowerCase v in
  let iB := normalizeInvoiceNumber toLowerCase i in
  Normalization.generateMergeKey toLowerCase ws v i d =
    match ws, v, i, d, vB, iB with
    | _ :: _, Some (_ :: _), Some (_ :: _), Some (c :: date),
      Some (cv :: vendor), Some (ci :: inv) =>
        Some (joined ws (cv :: vendor) (ci :: inv) (c :: date))
    | _, _, _, _, _, _ => None
    end.
Proof.
  intros vB iB. unfold Normalization.generateMergeKey. fold vB iB.
  clearbody vB iB.
  destruct ws as [|w ws]; [reflexivity|].
  destruct v as [[|cv v]|]; try reflexivity.
  destruct i as [[|ci i]|]; try reflexivity.
  destruct d as [[|cd d]|]; try reflexivity.
  destruct vB as [[|? ?]|]; try reflexivity;
    destruct iB as [[|? ?]|]; reflexivity.
Qed.

(** C2. Both generateMergeKey functions return null whenever one of the four
    inputs is null or empty or the vendor or the invoice number normalizes to
    nothing; and a key they return is the workspace, the normalized vendor,
    the normalized invoice number and the BS date, all four non-empty, joined
    by a vertical bar in that order. *)
Theorem generateMergeKey_format (ws : jsstring) (v i d : option jsstring) :
  let keyA := InvoiceProcessing.generateMergeKey toLowerCase ws v i d in
  let keyB := Normalization.generateMergeKey toLowerCase ws v i d in
  let vA := InvoiceProcessing.vendorNormalized toLowerCase v in
  let iA := InvoiceProcessing.invoiceNormalized toLowerCase i in
  let vB := normalizeVendorName toLowerCase v in
  let iB := normalizeInvoiceNumber toLowerCase i in
  (ws = [] \/ nullOrEmpty v \/ nullOrEmpty i \/ nullOrEmpty d ->
     keyA = None /\ keyB = None)
  /\ (vA = [] \/ iA = [] -> keyA = None)
  /\ (nullOrEmpty vB \/ nullOrEmpty iB -> keyB = None)
  /\ (forall k, keyA = Some k ->
        exists date, d = Some date
          /\ ws <> [] /\ vA <> [] /\ iA <> [] /\ date <> []
          /\ k = ws ++ u "|" ++ vA ++ u "|" ++ iA ++ u "|" ++ date)
  /\ (forall k, keyB = Some k ->
        exists vendor inv date, vB = Some vendor /\ iB = Some inv /\ d = Some date
          /\ ws <> [] /\ vendor <> [] /\ inv <> [] /\ date <> []
          /\ k = ws ++ u "|" ++ vendor ++ u "|" ++ inv ++ u "|" ++ date).
Proof.
  intros keyA keyB vA iA vB iB.
  assert (EA := mergeKeyA_cases ws v i d). cbv zeta in EA. fold keyA vA iA in EA.
  assert (EB := mergeKeyB_cases ws v i d). cbv zeta in EB. fold keyB vB iB in EB.
  clearbody keyA keyB vA iA vB iB. subst keyA keyB.
  unfold nullOrEmpty.
  split; [|split; [|split; [|split]]].
  - intros H.
    destruct ws as [|w ws']; [split; reflexivity|].
    destruct v as [[|cv v']|]; try (split; reflexivity).
    destruct i as [[|ci i']|]; try (split; reflexivity).
    destruct d as [[|cd d']|]; try (split; reflexivity).
    exfalso. destruct H as [H | [[H | H] | [[H | H] | [H | H]]]]; discriminate.
  - intros H.
    destruct ws as [|w ws']; [reflexivity|].
    destruct v as [[|cv v']|]; try reflexivity.
    destruct i as [[|ci i']|]; try reflexivity.
    destruct d as [[|cd d']|]; try reflexivity.
    destruct H as [-> | ->]; [reflexivity|]. destruct vA; reflexivity.
  - intros H.
    destruct ws as [|w ws']; [reflexivity|].
    destruct v as [[|cv v']|]; try reflexivity.
    destruct i as [[|ci i']|]; try reflexivity.
    destruct d as [[|cd d']|]; try reflexivity.
    destruct H as [[-> | ->] | [-> | ->]]; try reflexivity;
      destruct vB as [[|? ?]|]; reflexivity.
  - intros k.
    destruct ws as [|w ws']; [discriminate|].
    destruct v as [[|cv v']|]; try discriminate.
    destruct i as [[|ci i']|]; try discriminate.
    destruct d as [[|cd d']|]; try discriminate.
    destruct vA as [|a vA']; [discriminate|].
    destruct iA as [|b iA']; [discriminate|].
    intros H. inversion H. exists (cd :: d').
    repeat split; discriminate.
  - intros k.
    destruct ws as [|w ws']; [discriminate|].
    destruct v as [[|cv v']|]; try discriminate.
    destruct i as [[|ci i']|]; try discriminate.
    destruct d as [[|cd d']|]; try discriminate.
    destruct vB as [[|a vB']|]; try discriminate.
    destruct iB as [[|b iB']|]; try discriminate.
    intros H. inversion H. exists (a :: vB'), (b :: iB'), (cd :: d').
    repeat split; discriminate.
Qed.

End MergeKey.

(* ------------------------------------------------------------------ *)
(** * The two merge-key implementations compared *)
(* ------------------------------------------------------------------ *)

Section TwoMergeKeys.

Import Normalization.

(** Lower-casing first and keeping [a-z0-9-], or keeping [a-zA-Z0-9] first and
    lower-casing: the same on a unit that is not a hyphen. *)
Lemma invoiceChar_asciiLower (c : N) :
  c <> 45%N -> isInvoiceChar (asciiLower c) = InvoiceProcessing.isAlnum c.
Proof.
  intros Hc.
  unfold isInvoiceChar, InvoiceProcessing.isAlnum, asciiLower, isLower, isUpper, isDigit.
  destruct (N.leb_spec 65 c), (N.leb_spec c 90); simpl;
    repeat match goal with
           | |- context [N.leb ?a ?b] => destruct (N.leb_spec a b); simpl
           | |- context [N.eqb ?a ?b] => destruct (N.eqb_spec a b); simpl
           end;
    try reflexivity; lia.
Qed.

Lemma asciiLower_ascii (c : N) : isAscii c = true -> isAscii (asciiLower c) = true.
Proof.
  unfold isAscii, asciiLower, isUpper. rewrite !N.ltb_lt.
  destruct (N.leb_spec 65 c), (N.leb_spec c 90); simpl; lia.
Qed.

Lemma filter_alnum_lower (s : jsstring) :
  forallb isAsciiNotHyphen s = true ->
  removeClass (fun c => negb (isInvoiceChar c)) (asciiToLowerCase s)
  = asciiToLowerCase (removeClass (fun c => negb (InvoiceProcessing.isAlnum c)) s).
Proof.
  unfold removeClass, asciiToLowerCase.
  induction s as [|c s IH]; [reflexivity|].
  simpl. rewrite andb_true_iff. intros [Hc Hs].
  unfold isAsciiNotHyphen in Hc. apply andb_true_iff in Hc. destruct Hc as [_ Hc].
  apply negb_true_iff, N.eqb_neq in Hc.
  rewrite (invoiceChar_asciiLower c Hc).
  destruct (InvoiceProcessing.isAlnum c); simpl; rewrite (IH Hs); reflexivity.
Qed.

Lemma forallb_filter_ascii (p : N -> bool) (s : jsstring) :
  forallb isAsciiNotHyphen s = true -> forallb isAscii (filter p s) = true.
Proof.
  induction s as [|c s IH]; [reflexivity|].
  simpl. rewrite andb_true_iff. intros [Hc Hs].
  unfold isAsciiNotHyphen in Hc. apply andb_true_iff in Hc. destruct Hc as [Hc _].
  destruct (p c); simpl; [rewrite Hc|]; auto.
Qed.

Lemma forallb_weaken_ascii (s : jsstring) :
  forallb isAsciiNotHyphen s = true -> forallb isAscii s = true.
Proof.
  induction s as [|c s IH]; [reflexivity|].
  simpl. rewrite !andb_true_iff. unfold isAsciiNotHyphen at 1.
  rewrite andb_true_iff. intros [[Hc _] Hs]. auto.
Qed.

(** A name that ends with no listed suffix goes through the loop unchanged. *)
Lemma stripSuffixes_none (l : list jsstring) (s : jsstring) :
  existsb (endsWith s) l = false -> fold_left stripSuffix l s = s.
Proof.
  induction l as [|x l IH]; [reflexivity|].
  simpl. rewrite orb_false_iff. intros [Hx Hl].
  unfold stripSuffix at 2. rewrite Hx. exact (IH Hl).
Qed.

Variable toLowerCase : jsstring -> jsstring.

(** On ASCII strings the case mapping is the ASCII one. *)
Hypothesis toLowerCase_ascii :
  forall s, forallb isAscii s = true -> toLowerCase s = asciiToLowerCase s.

Variables (ws : jsstring) (v i d : option jsstring).

(** The lower-cased normalized vendor name has no white space at its ends and
    ends with none of the listed suffixes. *)
Hypothesis vendor_plain :
  forall ns, normalizeString v = Some ns ->
    trim (toLowerCase ns) = toLowerCase ns
    /\ existsb (endsWith (toLowerCase ns)) suffixes = false.

(** The invoice number, its digits converted, is ASCII without a hyphen. *)
Hypothesis invoice_plain :
  forall cs, convertNepaliDigits i = Some cs -> forallb isAsciiNotHyphen cs = true.

(** C10, amended. The two generateMergeKey functions agree on every input
    whose lower-cased normalized vendor name has no white space at its ends
    and ends with none of the listed suffixes and whose invoice number, its
    digits converted, is ASCII without a hyphen. *)
Theorem mergeKeys_agree_on_plain_input :
  InvoiceProcessing.generateMergeKey toLowerCase ws v i d
  = Normalization.generateMergeKey toLowerCase ws v i d.
Proof.
  rewrite mergeKeyA_cases, mergeKeyB_cases. cbv zeta.
  destruct ws as [|w ws']; [reflexivity|].
  destruct v as [[|cv v']|]; try reflexivity.
  destruct i as [[|ci i']|]; try reflexivity.
  destruct d as [[|cd d']|]; try reflexivity.
  set (sv := @Some jsstring (cv :: v')) in *.
  set (si := @Some jsstring (ci :: i')) in *.
  (* the vendor *)
  assert (EV : normalizeVendorName toLowerCase sv
               = match InvoiceProcessing.vendorNormalized toLowerCase sv with
                 | [] => match normalizeString sv with
                         | Some [] => None
                         | _ => Some []
                         end
                 | r => Some r
                 end).
  { unfold normalizeVendorName, InvoiceProcessing.vendorNormalized.
    change (falsyStr sv) with false. cbv iota.
    destruct (normalizeString sv) as [ns|] eqn:En; [|discriminate En].
    destruct (vendor_plain ns eq_refl) as [Ht Hs].
    rewrite Ht, (stripSuffixes_none _ _ Hs).
    destruct ns as [|n ns].
    - rewrite (toLowerCase_ascii [] eq_refl). reflexivity.
    - destruct (toLowerCase (n :: ns)); reflexivity. }
  (* the invoice number *)
  assert (EI : normalizeInvoiceNumber toLowerCase si
               = match InvoiceProcessing.invoiceNormalized toLowerCase si with
                 | [] => None
                 | r => Some r
                 end).
  { unfold normalizeInvoiceNumber, InvoiceProcessing.invoiceNormalized.
    change (falsyStr si) with false. cbv iota.
    destruct (convertNepaliDigits si) as [cs|] eqn:Ec; [|discriminate Ec].
    pose proof (invoice_plain cs eq_refl) as Hcs.
    rewrite (toLowerCase_ascii cs (forallb_weaken_ascii cs Hcs)).
    rewrite (toLowerCase_ascii
               (removeClass (fun c => negb (InvoiceProcessing.isAlnum c)) cs)
               (forallb_filter_ascii _ cs Hcs)).
    rewrite (filter_alnum_lower cs Hcs).
    destruct cs as [|c cs]; [discriminate Ec|].
    destruct (asciiToLowerCase _); reflexivity. }
  rewrite EV, EI.
  destruct (InvoiceProcessing.vendorNormalized toLowerCase sv) as [|a vA].
  - destruct (normalizeString sv) as [[|? ?]|]; reflexivity.
  - destruct (InvoiceProcessing.invoiceNormalized toLowerCase si); reflexivity.
Qed.

End TwoMergeKeys.

(** C10, as stated, fails: a vendor name with a corporate suffix and an
    invoice number with a hyphen give two different keys. *)
Lemma mergeKeys_differ :
  InvoiceProcessing.generateMergeKey Normalization.asciiToLowerCase (u "ws1")
    (Some (u "Acme Pvt Ltd")) (Some (u "INV-001")) (Some (u "2082/09/07"))
  = Some (u "ws1|acme pvt ltd|inv001|2082/09/07")
  /\ Normalization.generateMergeKey Normalization.asciiToLowerCase (u "ws1")
       (Some (u "Acme Pvt Ltd")) (Some (u "INV-001")) (Some (u "2082/09/07"))
     = Some (u "ws1|acme|inv-001|2082/09/07")
  /\ InvoiceProcessing.generateMergeKey Normalization.asciiToLowerCase (u "ws1")
       (Some (u "Acme Pvt Ltd")) (Some (u "INV-001")) (Some (u "2082/09/07"))
     <> Normalization.generateMergeKey Normalization.asciiToLowerCase (u "ws1")
          (Some (u "Acme Pvt Ltd")) (Some (u "INV-001")) (Some (u "2082/09/07")).
Proof.
  split; [vm_compute; reflexivity|]. split; [vm_compute; reflexivity|].
  vm_compute. discriminate.
Qed.

Lemma mergeKeys_agree_witness :
  InvoiceProcessing.generateMergeKey Normalization.asciiToLowerCase (u "ws1")
    (Some (u "Acme Traders")) (Some (u "INV001")) (Some (u "2082/09/07"))
  = Normalization.generateMergeKey Normalization.asciiToLowerCase (u "ws1")
      (Some (u "Acme Traders")) (Some (u "INV001")) (Some (u "2082/09/07")).
Proof.
  apply (mergeKeys_agree_on_plain_input Normalization.asciiToLowerCase).
  - intros s _. reflexivity.
  - intros ns H. vm_compute in H. injection H as <-. split; vm_compute; reflexivity.
  - intros cs H. vm_compute in H. injection H as <-. vm_compute. reflexivity.
Defined.

(* ------------------------------------------------------------------ *)
(** * Properties: decimal numerals and printed dates *)
(* ------------------------------------------------------------------ *)

Lemma u_string_of_uint (d : Decimal.uint) :
  u (NilEmpty.string_of_uint d) = uintCodes d.
Proof.
  unfold u. induction d; simpl; try reflexivity; f_equal; exact IHd.
Qed.

Lemma uintCodes_digits (d : Decimal.uint) : forallb isDigit (uintCodes d) = true.
Proof. induction d; simpl; auto. Qed.

Lemma digitsValue_acc (d : Decimal.uint) (acc : positive) :
  fold_left digitStep (uintCodes d) (Z.pos acc) = Z.pos (Pos.of_uint_acc d acc).
Proof.
  revert acc. induction d; intros acc; cbn [uintCodes fold_left Pos.of_uint_acc];
    try reflexivity.
  all: rewrite <- IHd; f_equal; unfold digitStep; simpl Z.of_N; lia.
Qed.

Lemma digitsValue_uint (d : Decimal.uint) :
  digitsValue (uintCodes d) = Z.of_N (Pos.of_uint d).
Proof.
  unfold digitsValue. fold digitStep.
  induction d; simpl; try reflexivity; try exact IHd;
    unfold digitStep at 2; simpl;
    rewrite <- digitsValue_acc; reflexivity.
Qed.

Lemma numberToString_pos (p : positive) :
  numberToString (Z.pos p) = uintCodes (Pos.to_uint p).
Proof.
  unfold numberToString. simpl Z.to_int.
  unfold NilZero.string_of_int, NilZero.string_of_uint.
  pose proof (Unsigned.to_uint_nonnil p) as Hn.
  destruct (Pos.to_uint p) eqn:E; try contradiction; rewrite <- u_string_of_uint; reflexivity.
Qed.

Lemma numberToString_digits (n : Z) :
  0 <= n ->
  numberToString n <> []
  /\ forallb isDigit (numberToString n) = true
  /\ digitsValue (numberToString n) = n.
Proof.
  intros Hn. destruct n as [|p|p]; [repeat split; discriminate| |lia].
  rewrite numberToString_pos. repeat split.
  - pose proof (Unsigned.to_uint_nonnil p) as H.
    destruct (Pos.to_uint p); try contradiction; discriminate.
  - apply uintCodes_digits.
  - rewrite digitsValue_uint, Unsigned.of_to. reflexivity.
Qed.

(** ** Parsing what the formatters print *)

Lemma isDigit_range (c : N) : isDigit c = true <-> (48 <= c <= 57)%N.
Proof. unfold isDigit. rewrite andb_true_iff, !N.leb_le. tauto. Qed.

Lemma digit_not_whitespace (c : N) : isDigit c = true -> isWhiteSpace c = false.
Proof.
  rewrite isDigit_range. intros H. unfold isWhiteSpace.
  repeat match goal with
         | |- context [N.leb ?a ?b] => destruct (N.leb_spec a b); try lia
         | |- context [N.eqb ?a ?b] => destruct (N.eqb_spec a b); try lia
         end; reflexivity.
Qed.

Lemma takeWhile_all {A} (p : A -> bool) (l : list A) :
  forallb p l = true -> takeWhile p l = l.
Proof.
  induction l as [|x l IH]; [reflexivity|]. simpl.
  rewrite andb_true_iff. intros [Hx Hl]. rewrite Hx, (IH Hl). reflexivity.
Qed.

Lemma dropWhile_none {A} (p : A -> bool) (l : list A) :
  forallb (fun x => negb (p x)) l = true -> dropWhile p l = l.
Proof.
  destruct l as [|x l]; [reflexivity|]. simpl.
  rewrite andb_true_iff, negb_true_iff. intros [-> _]. reflexivity.
Qed.

Lemma forallb_rev {A} (p : A -> bool) (l : list A) :
  forallb p (rev l) = forallb p l.
Proof.
  induction l as [|x l IH]; [reflexivity|]. simpl.
  rewrite forallb_app, IH. simpl. rewrite andb_true_r. apply andb_comm.
Qed.

Lemma trim_no_whitespace (s : jsstring) :
  forallb (fun c => negb (isWhiteSpace c)) s = true -> trim s = s.
Proof.
  intros H. unfold trim, trimEnd, trimStart.
  rewrite (dropWhile_none _ s H).
  rewrite dropWhile_none by (rewrite forallb_rev; exact H).
  apply rev_involutive.
Qed.

Lemma replaceClass_none (p : N -> bool) (x : N) (s : jsstring) :
  forallb (fun c => negb (p c)) s = true -> replaceClass p x s = s.
Proof.
  unfold replaceClass. induction s as [|c s IH]; [reflexivity|]. simpl.
  rewrite andb_true_iff, negb_true_iff. intros [-> Hs]. rewrite (IH Hs). reflexivity.
Qed.

Lemma split_no_sep (sep : N) (s : jsstring) :
  forallb (fun c => negb (c =? sep)%N) s = true -> split sep s = [s].
Proof.
  induction s as [|c s IH]; [reflexivity|]. simpl.
  rewrite andb_true_iff, negb_true_iff. intros [-> Hs]. rewrite (IH Hs). reflexivity.
Qed.

Lemma split_app_sep (sep : N) (a b : jsstring) :
  forallb (fun c => negb (c =? sep)%N) a = true ->
  split sep (a ++ sep :: b) = a :: split sep b.
Proof.
  induction a as [|c a IH]; simpl.
  - intros _. rewrite N.eqb_refl. reflexivity.
  - rewrite andb_true_iff, negb_true_iff. intros [-> Ha]. rewrite (IH Ha). reflexivity.
Qed.

Lemma forallb_impl {A} (p q : A -> bool) (l : list A) :
  (forall x, p x = true -> q x = true) -> forallb p l = true -> forallb q l = true.
Proof.
  intros Hpq. induction l as [|x l IH]; [reflexivity|]. simpl.
  rewrite !andb_true_iff. intros [Hx Hl]. auto.
Qed.

Lemma parseInt_signSplit (s : jsstring) :
  parseInt s =
    match takeWhile isDigit (snd (signSplit (trimStart s))) with
    | [] => None
    | ds => Some (fst (signSplit (trimStart s)) * digitsValue ds)
    end.
Proof.
  unfold parseInt. generalize (trimStart s) as s1. intros s1.
  assert (E : match s1 with
              | 45%N :: r => (-1, r)
              | 43%N :: r => (1, r)
              | _ => (1, s1)
              end = signSplit s1).
  { destruct s1 as [|c r]; [reflexivity|]. unfold signSplit.
    destruct c as [|p]; [reflexivity|].
    do 7 (try (destruct p as [p|p|]; try reflexivity)). }
  rewrite E. destruct (signSplit s1). reflexivity.
Qed.

Lemma parseInt_digits (ds : jsstring) :
  ds <> [] -> forallb isDigit ds = true -> parseInt ds = Some (digitsValue ds).
Proof.
  intros Hne Hd. rewrite parseInt_signSplit. unfold trimStart.
  destruct ds as [|c ds]; [contradiction|].
  assert (Hc : isDigit c = true) by (simpl in Hd; apply andb_true_iff in Hd; tauto).
  simpl dropWhile. rewrite (digit_not_whitespace c Hc).
  apply isDigit_range in Hc. unfold signSplit.
  destruct (N.eqb_spec c 45); [lia|]. destruct (N.eqb_spec c 43); [lia|].
  cbn [fst snd]. rewrite (takeWhile_all _ _ Hd). f_equal. lia.
Qed.

Lemma digitsValue_app (a b : jsstring) :
  digitsValue (a ++ b)
  = fold_left (fun acc c => 10 * acc + (Z.of_N c - 48)) b (digitsValue a).
Proof. unfold digitsValue. apply fold_left_app. Qed.

Lemma digitsValue_zeros (k : nat) (ds : jsstring) :
  digitsValue (repeat 48%N k ++ ds) = digitsValue ds.
Proof.
  rewrite digitsValue_app.
  assert (E : digitsValue (repeat 48%N k) = 0).
  { unfold digitsValue. induction k as [|k IH]; [reflexivity|]. simpl. exact IH. }
  rewrite E. reflexivity.
Qed.

Lemma pad2_digits (n : Z) :
  0 <= n ->
  pad2 n <> [] /\ forallb isDigit (pad2 n) = true /\ digitsValue (pad2 n) = n.
Proof.
  intros Hn. destruct (numberToString_digits n Hn) as [Hne [Hd Hv]].
  unfold pad2, padStart. repeat split.
  - intros E. apply app_eq_nil in E. tauto.
  - rewrite forallb_app, Hd, andb_true_r.
    induction (2 - List.length (numberToString n))%nat; [reflexivity|exact IHn0].
  - rewrite digitsValue_zeros. exact Hv.
Qed.

Lemma digits_no_sep (sep : N) (s : jsstring) :
  notDigit sep -> forallb isDigit s = true ->
  forallb (fun c => negb (c =? sep)%N) s = true.
Proof.
  intros Hs. apply forallb_impl. intros c Hc. apply isDigit_range in Hc.
  apply negb_true_iff, N.eqb_neq. unfold notDigit in Hs. lia.
Qed.

Lemma printed_units (sep : N) (y m d : Z) :
  0 <= y -> 0 <= m -> 0 <= d ->
  forallb (isDateUnit sep) (printed sep y m d) = true.
Proof.
  intros Hy Hm Hd. unfold printed.
  destruct (numberToString_digits y Hy) as [_ [Dy _]].
  destruct (pad2_digits m Hm) as [_ [Dm _]].
  destruct (pad2_digits d Hd) as [_ [Dd _]].
  assert (W : forall s, forallb isDigit s = true -> forallb (isDateUnit sep) s = true).
  { intros s. apply forallb_impl. intros c Hc. unfold isDateUnit. rewrite Hc. reflexivity. }
  rewrite !forallb_app, (W _ Dy), (W _ Dm), (W _ Dd). simpl.
  unfold isDateUnit. rewrite N.eqb_refl, orb_true_r. reflexivity.
Qed.

Lemma printed_split (sep : N) (y m d : Z) :
  notDigit sep -> 0 <= y -> 0 <= m -> 0 <= d ->
  split sep (printed sep y m d) = [numberToString y; pad2 m; pad2 d].
Proof.
  intros Hs Hy Hm Hd. unfold printed.
  destruct (numberToString_digits y Hy) as [_ [Dy _]].
  destruct (pad2_digits m Hm) as [_ [Dm _]].
  destruct (pad2_digits d Hd) as [_ [Dd _]].
  simpl app.
  rewrite split_app_sep by (apply digits_no_sep; assumption).
  rewrite split_app_sep by (apply digits_no_sep; assumption).
  rewrite split_no_sep by (apply digits_no_sep; assumption).
  reflexivity.
Qed.

Lemma printed_parts (sep : N) (maxDay y m d : Z) :
  notDigit sep -> 0 <= y -> 1 <= m <= 12 -> 1 <= d <= maxDay ->
  parseParts (split sep (printed sep y m d)) maxDay = Some (y, m, d).
Proof.
  intros Hs Hy Hm Hd.
  rewrite printed_split by (assumption || lia).
  destruct (numberToString_digits y Hy) as [Ny [Dy Vy]].
  destruct (pad2_digits m) as [Nm [Dm Vm]]; [lia|].
  destruct (pad2_digits d) as [Nd [Dd Vd]]; [lia|].
  unfold parseParts.
  rewrite (parseInt_digits _ Ny Dy), (parseInt_digits _ Nm Dm), (parseInt_digits _ Nd Dd).
  rewrite Vy, Vm, Vd.
  replace ((m <? 1) || (12 <? m) || (d <? 1) || (maxDay <? d)) with false; [reflexivity|].
  symmetry. rewrite !orb_false_iff, !Z.ltb_ge. lia.
Qed.

Lemma printed_nonempty (sep : N) (y m d : Z) : printed sep y m d <> [].
Proof.
  unfold printed. intros E. apply app_eq_nil in E. destruct E as [_ E]. discriminate E.
Qed.

Lemma formatBSDate_printed (bs : BSDate) :
  formatBSDate bs = printed 47%N (bs_year bs) (bs_month bs) (bs_day bs).
Proof. reflexivity. Qed.

Lemma formatADDate_printed (ad : ADDate) :
  formatADDate ad = printed 45%N (ad_year ad) (ad_month ad) (ad_day ad).
Proof. reflexivity. Qed.

Lemma dateUnit_plain (sep : N) (s : jsstring) (p : N -> bool) :
  (forall c, isDigit c = true -> p c = false) -> p sep = false ->
  forallb (isDateUnit sep) s = true -> forallb (fun c => negb (p c)) s = true.
Proof.
  intros Hd Hs. apply forallb_impl. intros c Hc. unfold isDateUnit in Hc.
  apply orb_true_iff in Hc. destruct Hc as [Hc | Hc].
  - rewrite (Hd c Hc). reflexivity.
  - apply N.eqb_eq in Hc. subst c. rewrite Hs. reflexivity.
Qed.

Lemma digit_not_dotOrHyphen (c : N) : isDigit c = true -> isDotOrHyphen c = false.
Proof.
  rewrite isDigit_range. intros H. unfold isDotOrHyphen.
  rewrite orb_false_iff, !N.eqb_neq. lia.
Qed.

Lemma digit_not_slash (c : N) : isDigit c = true -> isSlash c = false.
Proof.
  rewrite isDigit_range. intros H. unfold isSlash. rewrite N.eqb_neq. lia.
Qed.

Lemma parse_format_BS (bs : BSDate) :
  0 <= bs_year bs -> 1 <= bs_month bs <= 12 -> 1 <= bs_day bs <= 32 ->
  parseBSDate (formatBSDate bs) = Some bs.
Proof.
  intros Hy Hm Hd. rewrite formatBSDate_printed.
  pose proof (printed_units 47%N (bs_year bs) (bs_month bs) (bs_day bs)) as U.
  specialize (U Hy ltac:(lia) ltac:(lia)).
  unfold parseBSDate.
  destruct (printed 47%N (bs_year bs) (bs_month bs) (bs_day bs)) eqn:E;
    [exfalso; exact (printed_nonempty _ _ _ _ E)|].
  rewrite <- E in *.
  rewrite trim_no_whitespace
    by (apply (dateUnit_plain 47%N); [exact digit_not_whitespace | reflexivity | exact U]).
  rewrite replaceClass_none
    by (apply (dateUnit_plain 47%N); [exact digit_not_dotOrHyphen | reflexivity | exact U]).
  rewrite printed_parts; try assumption; [|unfold notDigit; lia].
  destruct bs; reflexivity.
Qed.

Lemma parse_format_AD (ad : ADDate) :
  0 <= ad_year ad -> 1 <= ad_month ad <= 12 -> 1 <= ad_day ad <= 31 ->
  parseADDate (formatADDate ad) = Some ad.
Proof.
  intros Hy Hm Hd. rewrite formatADDate_printed.
  pose proof (printed_units 45%N (ad_year ad) (ad_month ad) (ad_day ad)) as U.
  specialize (U Hy ltac:(lia) ltac:(lia)).
  unfold parseADDate.
  destruct (printed 45%N (ad_year ad) (ad_month ad) (ad_day ad)) eqn:E;
    [exfalso; exact (printed_nonempty _ _ _ _ E)|].
  rewrite <- E in *.
  rewrite trim_no_whitespace
    by (apply (dateUnit_plain 45%N); [exact digit_not_whitespace | reflexivity | exact U]).
  rewrite replaceClass_none
    by (apply (dateUnit_plain 45%N); [exact digit_not_slash | reflexivity | exact U]).
  rewrite printed_parts; try assumption; [|unfold notDigit; lia].
  destruct ad; reflexivity.
Qed.

(** X1. A BS date with a year from 0 on, a month from 1 to 12 and a day from 1
    to 32 is read back by parseBSDate from what formatBSDate prints. *)
Theorem parseBSDate_formatBSDate (bs : BSDate) :
  0 <= bs_year bs -> 1 <= bs_month bs <= 12 -> 1 <= bs_day bs <= 32 ->
  parseBSDate (formatBSDate bs) = Some bs.
Proof. exact (parse_format_BS bs). Qed.

(** X2. An AD date with a year from 0 on, a month from 1 to 12 and a day from 1
    to 31 is read back by parseADDate from what formatADDate prints. *)
Theorem parseADDate_formatADDate (ad : ADDate) :
  0 <= ad_year ad -> 1 <= ad_month ad <= 12 -> 1 <= ad_day ad <= 31 ->
  parseADDate (formatADDate ad) = Some ad.
Proof. exact (parse_format_AD ad). Qed.

(** ** What a successful parse guarantees *)

Lemma digitsValue_nonneg (ds : jsstring) :
  forallb isDigit ds = true -> 0 <= digitsValue ds.
Proof.
  unfold digitsValue.
  assert (G : forall acc, 0 <= acc -> forallb isDigit ds = true ->
              0 <= fold_left (fun a c => 10 * a + (Z.of_N c - 48)) ds acc).
  { induction ds as [|c ds IH]; intros acc Ha; cbn [fold_left forallb];
      [intros _; exact Ha|].
    rewrite andb_true_iff. intros [Hc Hd]. apply IH; [|exact Hd].
    apply isDigit_range in Hc. lia. }
  apply G. lia.
Qed.

Lemma takeWhile_forallb {A} (p : A -> bool) (l : list A) :
  forallb p (takeWhile p l) = true.
Proof.
  induction l as [|x l IH]; [reflexivity|]. simpl.
  destruct (p x) eqn:E; [simpl; rewrite E; exact IH | reflexivity].
Qed.

Lemma dropWhile_In {A} (p : A -> bool) (l : list A) (x : A) :
  In x (dropWhile p l) -> In x l.
Proof.
  induction l as [|y l IH]; [auto|]. simpl.
  destruct (p y); [intros H; right; exact (IH H) | auto].
Qed.

Lemma split_part_In (sep : N) (s p : jsstring) (c : N) :
  In p (split sep s) -> In c p -> In c s /\ c <> sep.
Proof.
  revert p. induction s as [|x s IH]; intros p; simpl.
  - intros [<- | []] [].
  - destruct (N.eqb_spec x sep) as [-> | Hx].
    + intros [<- | Hp]; [intros []|]. intros Hc.
      destruct (IH p Hp Hc). split; [right|]; assumption.
    + destruct (split sep s) as [|q qs] eqn:E.
      * intros [<- | []] [<- | []]. split; [left; reflexivity | exact Hx].
      * intros [<- | Hp].
        -- intros [<- | Hc]; [split; [left; reflexivity | exact Hx]|].
           destruct (IH q (or_introl eq_refl) Hc). split; [right|]; assumption.
        -- intros Hc. destruct (IH p (or_intror Hp) Hc). split; [right|]; assumption.
Qed.

Lemma parseInt_nonneg (s : jsstring) (v : Z) :
  ~ In 45%N s -> parseInt s = Some v -> 0 <= v.
Proof.
  intros Hno. rewrite parseInt_signSplit.
  assert (Hs : fst (signSplit (trimStart s)) = 1).
  { unfold trimStart. pose proof (dropWhile_In isWhiteSpace s) as Hin.
    destruct (dropWhile isWhiteSpace s) as [|c r]; [reflexivity|]. simpl.
    destruct (N.eqb_spec c 45) as [-> | _].
    - exfalso. apply Hno, (Hin 45%N). left. reflexivity.
    - destruct (c =? 43)%N; reflexivity. }
  rewrite Hs.
  pose proof (takeWhile_forallb isDigit (snd (signSplit (trimStart s)))) as Hd.
  destruct (takeWhile isDigit (snd (signSplit (trimStart s)))) as [|c ds];
    [discriminate|].
  intros E. assert (E1 : 1 * digitsValue (c :: ds) = v) by congruence.
  pose proof (digitsValue_nonneg _ Hd). lia.
Qed.

Lemma parseParts_sound (parts : list jsstring) (maxDay y m d : Z) :
  parseParts parts maxDay = Some (y, m, d) ->
  exists p0 p1 p2, parts = [p0; p1; p2]
    /\ parseInt p0 = Some y /\ parseInt p1 = Some m /\ parseInt p2 = Some d
    /\ 1 <= m <= 12 /\ 1 <= d <= maxDay.
Proof.
  unfold parseParts.
  destruct parts as [|p0 [|p1 [|p2 [|? ?]]]]; try discriminate.
  destruct (parseInt p0) as [y'|] eqn:E0; [|discriminate].
  destruct (parseInt p1) as [m'|] eqn:E1; [|discriminate].
  destruct (parseInt p2) as [d'|] eqn:E2; [|discriminate].
  destruct ((m' <? 1) || (12 <? m') || (d' <? 1) || (maxDay <? d')) eqn:E;
    [discriminate|].
  intros H. inversion H; subst.
  rewrite !orb_false_iff, !Z.ltb_ge in E.
  exists p0, p1, p2. repeat split; try assumption; try reflexivity; lia.
Qed.

Lemma parseBSDate_sound (s : jsstring) (bs : BSDate) :
  parseBSDate s = Some bs ->
  0 <= bs_year bs /\ 1 <= bs_month bs <= 12 /\ 1 <= bs_day bs <= 32.
Proof.
  unfold parseBSDate. destruct s as [|c0 s0]; [discriminate|].
  set (cleaned := replaceClass isDotOrHyphen 47%N (trim (c0 :: s0))).
  destruct (parseParts (split 47%N cleaned) 32) as [[[y m] d]|] eqn:E; [|discriminate].
  intros H. inversion H; subst bs. simpl.
  apply parseParts_sound in E.
  destruct E as [p0 [p1 [p2 [Ep [Hy [_ [_ [Hm Hd]]]]]]]].
  split; [|split; assumption].
  apply (parseInt_nonneg p0); [|exact Hy].
  intros Hin.
  assert (Hp : In p0 (split 47%N cleaned)) by (rewrite Ep; left; reflexivity).
  destruct (split_part_In _ _ _ _ Hp Hin) as [Hc _].
  unfold cleaned, replaceClass in Hc. apply in_map_iff in Hc.
  destruct Hc as [x [Hx _]]. unfold isDotOrHyphen in Hx.
  destruct (N.eqb_spec x 46); destruct (N.eqb_spec x 45); simpl in Hx; try discriminate.
  congruence.
Qed.

Lemma parseADDate_sound (s : jsstring) (ad : ADDate) :
  parseADDate s = Some ad ->
  0 <= ad_year ad /\ 1 <= ad_month ad <= 12 /\ 1 <= ad_day ad <= 31.
Proof.
  unfold parseADDate. destruct s as [|c0 s0]; [discriminate|].
  set (cleaned := replaceClass isSlash 45%N (trim (c0 :: s0))).
  destruct (parseParts (split 45%N cleaned) 31) as [[[y m] d]|] eqn:E; [|discriminate].
  intros H. inversion H; subst ad. simpl.
  apply parseParts_sound in E.
  destruct E as [p0 [p1 [p2 [Ep [Hy [_ [_ [Hm Hd]]]]]]]].
  split; [|split; assumption].
  apply (parseInt_nonneg p0); [|exact Hy].
  intros Hin.
  assert (Hp : In p0 (split 45%N cleaned)) by (rewrite Ep; left; reflexivity).
  destruct (split_part_In _ _ _ _ Hp Hin) as [_ Hc]. apply Hc. reflexivity.
Qed.

(** X3. Whatever string convertFromBS accepts, the BS string it returns is
    formatBSDate of the date it returns, parses back to that date, and is
    converted to the very same result: the output is a fixed point. *)
Theorem convertFromBS_canonical (lib : NepaliDateLib) (s : jsstring) (c : ConvertedDate) :
  convertFromBS lib s = Some c ->
  bsFormatted c = formatBSDate (cd_bs c)
  /\ parseBSDate (bsFormatted c) = Some (cd_bs c)
  /\ convertFromBS lib (bsFormatted c) = Some c.
Proof.
  unfold convertFromBS at 1.
  destruct (parseBSDate s) as [bs|] eqn:Ep; [|discriminate].
  destruct (bsToAd lib bs) as [ad|] eqn:Ea; [|discriminate].
  intros H. inversion H; subst c. simpl.
  destruct (parseBSDate_sound s bs Ep) as [Hy [Hm Hd]].
  pose proof (parse_format_BS bs Hy Hm Hd) as R.
  split; [reflexivity|]. split; [exact R|].
  unfold convertFromBS. rewrite R, Ea. reflexivity.
Qed.

(** X4. Whatever string convertFromAD accepts, the AD string it returns is
    formatADDate of the date it returns, parses back to that date, and is
    converted to the very same result. *)
Theorem convertFromAD_canonical (lib : NepaliDateLib) (s : jsstring) (c : ConvertedDate) :
  convertFromAD lib s = Some c ->
  adFormatted c = formatADDate (cd_ad c)
  /\ parseADDate (adFormatted c) = Some (cd_ad c)
  /\ convertFromAD lib (adFormatted c) = Some c.
Proof.
  unfold convertFromAD at 1.
  destruct (parseADDate s) as [ad|] eqn:Ep; [|discriminate].
  destruct (adToBs lib ad) as [bs|] eqn:Ea; [|discriminate].
  intros H. inversion H; subst c. simpl.
  destruct (parseADDate_sound s ad Ep) as [Hy [Hm Hd]].
  pose proof (parse_format_AD ad Hy Hm Hd) as R.
  split; [reflexivity|]. split; [exact R|].
  unfold convertFromAD. rewrite R, Ea. reflexivity.
Qed.

(** ** Calendar detection *)

Lemma cleaned_same (s : jsstring) :
  replaceClass isDateSeparator 47%N s = replaceClass isDotOrHyphen 47%N s.
Proof.
  unfold replaceClass. apply map_ext. intros c.
  unfold isDateSeparator, isDotOrHyphen.
  destruct (N.eqb_spec c 46), (N.eqb_spec c 45), (N.eqb_spec c 47); simpl;
    congruence.
Qed.

Lemma detectCalendar_parsed (lib : NepaliDateLib) (s : jsstring) (bs : BSDate) :
  parseBSDate s = Some bs ->
  detectCalendar lib s =
    Some (if 2050 <? bs_year bs then BS
          else if bs_year bs <? 2000 then AD
          else if isValidBSDate lib bs then BS else AD).
Proof.
  unfold parseBSDate, detectCalendar. destruct s as [|c0 s0]; [discriminate|].
  rewrite cleaned_same.
  set (cleaned := replaceClass isDotOrHyphen 47%N (trim (c0 :: s0))).
  destruct (parseParts (split 47%N cleaned) 32) as [[[y m] d]|] eqn:E; [|discriminate].
  intros H. inversion H; subst bs. simpl.
  apply parseParts_sound in E.
  destruct E as [p0 [p1 [p2 [-> [Hy [Hm [Hd _]]]]]]].
  rewrite Hy, Hm, Hd. unfold isValidBSDate. simpl.
  destruct (2050 <? y); [reflexivity|]. destruct (y <? 2000); [reflexivity|].
  destruct (newFromBS lib (Some y) (Some (m - 1)) (Some d)); reflexivity.
Qed.

Lemma detectCalendar_null (lib : NepaliDateLib) (s : jsstring) :
  detectCalendar lib s = None ->
  parseBSDate s = None /\ convertFromBS lib s = None.
Proof.
  intros H.
  assert (P : parseBSDate s = None).
  { destruct (parseBSDate s) as [bs|] eqn:E; [|reflexivity].
    rewrite (detectCalendar_parsed lib s bs E) in H. discriminate. }
  split; [exact P|]. unfold convertFromBS. rewrite P. reflexivity.
Qed.

(** X5. On a string that parses as a BS date, detectCalendar answers BS for
    a year above 2050, AD for a year below 2000, and in between BS exactly
    when the library accepts the date as a BS date. *)
Theorem detectCalendar_of_BS_string (lib : NepaliDateLib) (s : jsstring) (bs : BSDate) :
  parseBSDate s = Some bs ->
  detectCalendar lib s =
    Some (if 2050 <? bs_year bs then BS
          else if bs_year bs <? 2000 then AD
          else if isValidBSDate lib bs then BS else AD).
Proof. exact (detectCalendar_parsed lib s bs). Qed.

(** X6. When detectCalendar answers null the string does not parse as a BS
    date, so that convertFromBS fails on it. *)
Theorem detectCalendar_none (lib : NepaliDateLib) (s : jsstring) :
  detectCalendar lib s = None ->
  parseBSDate s = None /\ convertFromBS lib s = None.
Proof. exact (detectCalendar_null lib s). Qed.

(* ------------------------------------------------------------------ *)
(** * Properties: the normalization module *)
(* ------------------------------------------------------------------ *)

Import Normalization NormalizationFields.

Lemma nepaliDigit_not_nepali (c : N) : isNepaliDigitUnit (nepaliDigit c) = false.
Proof.
  unfold nepaliDigit, isNepaliDigitUnit.
  destruct (N.leb_spec 2406 c), (N.leb_spec c 2415); simpl;
    repeat match goal with
           | |- context [N.leb ?a ?b] => destruct (N.leb_spec a b); simpl
           end; try reflexivity; lia.
Qed.

Lemma nepaliDigit_fixed (c : N) : isNepaliDigitUnit c = false -> nepaliDigit c = c.
Proof. unfold nepaliDigit, isNepaliDigitUnit. intros ->. reflexivity. Qed.

Lemma map_fixed {A} (f : A -> A) (p : A -> bool) (l : list A) :
  (forall x, p x = true -> f x = x) -> forallb p l = true -> map f l = l.
Proof.
  intros Hf. induction l as [|x l IH]; [reflexivity|]. simpl.
  rewrite andb_true_iff. intros [Hx Hl]. rewrite (Hf x Hx), (IH Hl). reflexivity.
Qed.

(** X7. convertNepaliDigits returns null exactly on a null or empty input;
    otherwise the result is not empty, has the length of the input, holds no
    Devanagari digit, and is left unchanged by a second conversion. *)
Theorem convertNepaliDigits_idempotent (s : option jsstring) :
  (convertNepaliDigits s = None <-> nullOrEmpty s)
  /\ forall r, convertNepaliDigits s = Some r ->
       r <> []
       /\ (exists s0, s = Some s0 /\ List.length r = List.length s0)
       /\ forallb (fun c => negb (isNepaliDigitUnit c)) r = true
       /\ convertNepaliDigits (Some r) = Some r.
Proof.
  unfold nullOrEmpty. split.
  - destruct s as [[|c s]|]; simpl; split; intros H; auto; try discriminate;
      destruct H; discriminate.
  - intros r. destruct s as [[|c s]|]; try discriminate. simpl.
    intros H. inversion H; subst r. clear H.
    assert (F : forall l, forallb (fun c => negb (isNepaliDigitUnit c))
                            (map nepaliDigit l) = true).
    { induction l as [|x l IH]; [reflexivity|]. simpl.
      rewrite nepaliDigit_not_nepali, IH. reflexivity. }
    split; [discriminate|]. split.
    + exists (c :: s). split; [reflexivity|]. simpl. rewrite length_map. reflexivity.
    + split; [exact (F (c :: s))|].
      change (Some (map nepaliDigit (nepaliDigit c :: map nepaliDigit s))
              = Some (nepaliDigit c :: map nepaliDigit s)).
      f_equal.
      apply (map_fixed _ (fun c => negb (isNepaliDigitUnit c))); [|exact (F (c :: s))].
      intros x Hx. apply nepaliDigit_fixed, negb_true_iff, Hx.
Qed.

Lemma nepali_of_ascii (c : N) :
  isNepaliDigitUnit c = false -> nepaliDigit (toNepaliDigit c) = c.
Proof.
  intros Hn. unfold toNepaliDigit. destruct (isDigit c) eqn:Ed.
  - apply isDigit_range in Ed. unfold nepaliDigit.
    replace ((2406 <=? c - 48 + 2406) && (c - 48 + 2406 <=? 2415))%N with true
      by (symmetry; rewrite andb_true_iff, !N.leb_le; lia).
    lia.
  - apply nepaliDigit_fixed, Hn.
Qed.

Lemma ascii_of_nepali (c : N) :
  isDigit c = false -> toNepaliDigit (nepaliDigit c) = c.
Proof.
  intros Hn. unfold nepaliDigit.
  destruct ((2406 <=? c) && (c <=? 2415))%N eqn:Ed.
  - rewrite andb_true_iff, !N.leb_le in Ed. unfold toNepaliDigit.
    replace (isDigit (c - 2406 + 48)) with true
      by (symmetry; apply isDigit_range; lia).
    lia.
  - unfold toNepaliDigit. rewrite Hn. reflexivity.
Qed.

(** X8. On a non-empty string, convertToNepaliDigits followed by
    convertNepaliDigits gives the string back when it holds no Devanagari
    digit, and convertNepaliDigits followed by convertToNepaliDigits gives it
    back when it holds no ASCII digit. *)
Theorem nepaliDigits_roundtrip (s : jsstring) :
  s <> [] ->
  (forallb (fun c => negb (isNepaliDigitUnit c)) s = true ->
     convertNepaliDigits (convertToNepaliDigits (Some s)) = Some s)
  /\ (forallb (fun c => negb (isDigit c)) s = true ->
     convertToNepaliDigits (convertNepaliDigits (Some s)) = Some s).
Proof.
  intros Hne. destruct s as [|c s]; [contradiction|]. split; intros H.
  - change (Some (map nepaliDigit (map toNepaliDigit (c :: s))) = Some (c :: s)).
    f_equal. rewrite map_map.
    apply (map_fixed (fun x => nepaliDigit (toNepaliDigit x))
             (fun c => negb (isNepaliDigitUnit c))); [|exact H].
    intros x Hx. apply nepali_of_ascii, negb_true_iff, Hx.
  - change (Some (map toNepaliDigit (map nepaliDigit (c :: s))) = Some (c :: s)).
    f_equal. rewrite map_map.
    apply (map_fixed (fun x => toNepaliDigit (nepaliDigit x))
             (fun c => negb (isDigit c))); [|exact H].
    intros x Hx. apply ascii_of_nepali, negb_true_iff, Hx.
Qed.

(** ** normalizeString *)

Lemma collapseFrom_invariants (l : jsstring) :
  forall b, noControl l = true ->
    noControl (collapseFrom b l) = true
    /\ spacesOnly (collapseFrom b l) = true
    /\ noAdjacentSpaces (collapseFrom b l) = true
    /\ (b = true -> hd 0%N (collapseFrom b l) <> 32%N).
Proof.
  unfold noControl, spacesOnly.
  induction l as [|c l IH]; intros b Hl.
  - simpl. repeat split. intros _. discriminate.
  - simpl in Hl. apply andb_true_iff in Hl. destruct Hl as [Hc Hl].
    simpl collapseFrom. destruct (isWhiteSpace c) eqn:Ew.
    + destruct (IH true Hl) as [I1 [I2 [I3 I4]]]. destruct b.
      * repeat split; assumption.
      * specialize (I4 eq_refl). simpl. rewrite I1, I2, I3. repeat split.
        -- destruct (collapseFrom true l) as [|x r]; [reflexivity|].
           simpl in I4. apply N.eqb_neq in I4. rewrite I4. reflexivity.
        -- discriminate.
    + destruct (IH false Hl) as [I1 [I2 [I3 _]]].
      assert (Hn : (c =? 32)%N = false).
      { destruct (N.eqb_spec c 32) as [-> |]; [discriminate Ew | reflexivity]. }
      simpl. rewrite Hc, Ew, I1, I2, I3, Hn. repeat split.
      * destruct (collapseFrom false l); reflexivity.
      * intros _. apply N.eqb_neq, Hn.
Qed.

Lemma removeClass_none_left (p : N -> bool) (s : jsstring) :
  forallb (fun c => negb (p c)) (removeClass p s) = true.
Proof.
  unfold removeClass. induction s as [|c s IH]; [reflexivity|]. simpl.
  destruct (p c) eqn:E; simpl; [exact IH | rewrite E, IH; reflexivity].
Qed.

(** X9. normalizeString returns null exactly on a null or empty input;
    otherwise the result holds no control character, no white space other
    than the plain space, and no two spaces in a row. *)
Theorem normalizeString_invariants (s : option jsstring) :
  match normalizeString s with
  | None => nullOrEmpty s
  | Some r =>
      ~ nullOrEmpty s
      /\ noControl r = true /\ spacesOnly r = true /\ noAdjacentSpaces r = true
  end.
Proof.
  unfold nullOrEmpty. destruct s as [[|c s]|]; simpl; auto.
  destruct (collapseFrom_invariants (removeClass isControl (trim (c :: s))) false)
    as [I1 [I2 [I3 _]]]; [apply removeClass_none_left|].
  split; [intros [H|H]; discriminate|].
  repeat split; assumption.
Qed.

(** ** normalizeInvoiceNumber *)

Lemma invoiceChar_plain (c : N) :
  isInvoiceChar c = true ->
  isAscii c = true /\ nepaliDigit c = c /\ asciiLower c = c.
Proof.
  unfold isInvoiceChar, isLower, isDigit. intros H.
  assert (R : (c <= 122)%N /\ ~ (65 <= c <= 90)%N).
  { rewrite !orb_true_iff, !andb_true_iff, !N.leb_le, N.eqb_eq in H. lia. }
  split; [unfold isAscii; apply N.ltb_lt; lia|]. split.
  - unfold nepaliDigit.
    replace ((2406 <=? c) && (c <=? 2415))%N with false; [reflexivity|].
    symmetry. apply andb_false_iff. left. apply N.leb_gt. lia.
  - unfold asciiLower, isUpper.
    replace ((65 <=? c) && (c <=? 90))%N with false; [reflexivity|].
    symmetry. rewrite andb_false_iff, !N.leb_gt. lia.
Qed.

Section InvoiceNumber.

Variable toLowerCase : jsstring -> jsstring.

Lemma normalizeInvoiceNumber_chars (input : option jsstring) (r : jsstring) :
  normalizeInvoiceNumber toLowerCase input = Some r ->
  r <> [] /\ forallb isInvoiceChar r = true.
Proof.
  unfold normalizeInvoiceNumber.
  destruct (falsyStr input); [discriminate|].
  destruct (convertNepaliDigits input) as [[|c n]|]; try discriminate.
  pose proof (removeClass_none_left (fun c => negb (isInvoiceChar c))
                (toLowerCase (c :: n))) as F.
  destruct (removeClass _ (toLowerCase (c :: n))) as [|x r'] eqn:E; [discriminate|].
  intros H. inversion H; subst r. split; [discriminate|].
  revert F. apply forallb_impl. intros y. rewrite negb_involutive. auto.
Qed.

Hypothesis toLowerCase_ascii :
  forall s, forallb isAscii s = true -> toLowerCase s = asciiToLowerCase s.

(** X10. With a lower-casing that agrees with the ASCII one on ASCII
    strings, a result of normalizeInvoiceNumber is not empty, holds only the
    characters the function keeps, and is left unchanged when normalised
    again. *)
Theorem normalizeInvoiceNumber_idempotent (input : option jsstring) (r : jsstring) :
  normalizeInvoiceNumber toLowerCase input = Some r ->
  r <> [] /\ forallb isInvoiceChar r = true
  /\ normalizeInvoiceNumber toLowerCase (Some r) = Some r.
Proof.
  intros H. destruct (normalizeInvoiceNumber_chars input r H) as [Hne Hc].
  split; [exact Hne|]. split; [exact Hc|].
  destruct r as [|x r]; [contradiction|].
  unfold normalizeInvoiceNumber. change (falsyStr (Some (x :: r))) with false. cbv iota.
  change (convertNepaliDigits (Some (x :: r))) with (Some (map nepaliDigit (x :: r))).
  rewrite (map_fixed nepaliDigit isInvoiceChar (x :: r))
    by (exact Hc || (intros y Hy; apply invoiceChar_plain, Hy)).
  rewrite toLowerCase_ascii
    by (revert Hc; apply forallb_impl; intros y Hy; apply invoiceChar_plain, Hy).
  unfold asciiToLowerCase.
  rewrite (map_fixed asciiLower isInvoiceChar (x :: r))
    by (exact Hc || (intros y Hy; apply invoiceChar_plain, Hy)).
  assert (F : removeClass (fun c => negb (isInvoiceChar c)) (x :: r) = x :: r).
  { unfold removeClass. apply forallb_filter_id.
    revert Hc. apply forallb_impl. intros y ->. reflexivity. }
  rewrite F. reflexivity.
Qed.

End InvoiceNumber.

(** ** The PAN checks *)

Lemma isDigit_nepaliDigit (c : N) : isDigit (nepaliDigit c) = isAnyDigit c.
Proof.
  unfold isAnyDigit, nepaliDigit, isNepaliDigitUnit.
  destruct ((2406 <=? c) && (c <=? 2415))%N eqn:E.
  - rewrite orb_true_r. rewrite andb_true_iff, !N.leb_le in E.
    apply isDigit_range. lia.
  - rewrite orb_false_r. reflexivity.
Qed.

Lemma digits_after_conversion (s : jsstring) :
  removeClass (fun c => negb (isDigit c)) (map nepaliDigit s)
  = map nepaliDigit (filter isAnyDigit s).
Proof.
  unfold removeClass. induction s as [|c s IH]; [reflexivity|]. simpl.
  rewrite negb_involutive, isDigit_nepaliDigit.
  destruct (isAnyDigit c); simpl; rewrite IH; reflexivity.
Qed.

Lemma removeClass_negb (p : N -> bool) (s : jsstring) :
  removeClass (fun c => negb (p c)) s = filter p s.
Proof.
  unfold removeClass. apply filter_ext. intros c. apply negb_involutive.
Qed.

(** X11. The three PAN checks.  normalizePAN and the pipeline's validatePAN
    give the same verdict.  On a null or empty PAN the pipeline says invalid
    and the validation module says valid.  On a non-empty PAN the pipeline
    accepts exactly nine digits of either script, whatever else is in the
    string, and the validation module exactly nine ASCII digits. *)
Theorem pan_checks (x : option jsstring) :
  isValid (normalizePAN x) = InvoiceProcessing.validatePAN x
  /\ (nullOrEmpty x ->
      InvoiceProcessing.validatePAN x = false
      /\ Validation.pan_valid (Validation.validatePAN x) = true)
  /\ (forall s, x = Some s -> s <> [] ->
      (InvoiceProcessing.validatePAN x = true <->
         List.length (filter isAnyDigit s) = 9%nat)
      /\ (Validation.pan_valid (Validation.validatePAN x) = true <->
         List.length (filter isDigit s) = 9%nat)).
Proof.
  split; [|split].
  - unfold normalizePAN, InvoiceProcessing.validatePAN.
    destruct (falsyStr x); reflexivity.
  - intros [-> | ->]; split; reflexivity.
  - intros s -> Hne. destruct s as [|c s]; [contradiction|]. split.
    + unfold InvoiceProcessing.validatePAN.
      change (falsyStr (Some (c :: s))) with false. cbv iota.
      change (convertNepaliDigits (Some (c :: s))) with (Some (map nepaliDigit (c :: s))).
      cbv beta iota zeta.
      rewrite digits_after_conversion, length_map. apply Nat.eqb_eq.
    + unfold Validation.validatePAN.
      change (falsyStr (Some (c :: s))) with false. cbv iota.
      rewrite removeClass_negb.
      destruct (Nat.eqb (List.length (filter isDigit (c :: s))) 9) eqn:E; simpl.
      * apply Nat.eqb_eq in E. tauto.
      * apply Nat.eqb_neq in E. split; [discriminate | contradiction].
Qed.

(* ------------------------------------------------------------------ *)
(** * Properties: the pipeline and the validation module *)
(* ------------------------------------------------------------------ *)

(** ** normalizeDateField *)

Lemma printed_not_empty_format (bs : BSDate) : formatBSDate bs <> [].
Proof. rewrite formatBSDate_printed. apply printed_nonempty. Qed.

Lemma printed_not_empty_formatAD (ad : ADDate) : formatADDate ad <> [].
Proof. rewrite formatADDate_printed. apply printed_nonempty. Qed.

Lemma convertFromBS_formats (lib : NepaliDateLib) (s : jsstring) (c : ConvertedDate) :
  convertFromBS lib s = Some c -> bsFormatted c <> [] /\ adFormatted c <> [].
Proof.
  unfold convertFromBS. destruct (parseBSDate s); [|discriminate].
  destruct (bsToAd lib b); [|discriminate]. intros H. inversion H. simpl.
  split; [apply printed_not_empty_format | apply printed_not_empty_formatAD].
Qed.

Lemma convertFromAD_formats (lib : NepaliDateLib) (s : jsstring) (c : ConvertedDate) :
  convertFromAD lib s = Some c -> bsFormatted c <> [] /\ adFormatted c <> [].
Proof.
  unfold convertFromAD. destruct (parseADDate s); [|discriminate].
  destruct (adToBs lib a); [|discriminate]. intros H. inversion H. simpl.
  split; [apply printed_not_empty_format | apply printed_not_empty_formatAD].
Qed.

Section DateField.

Variable lib : NepaliDateLib.

(** X12. normalizeDateField returns null exactly on a null or empty text.
    Otherwise the result carries the raw text, the calendar given by the
    caller when there is one, and, when the conversion is valid, the two
    formatted strings of a successful conversion of the digit-converted
    text in the calendar reported, both non-empty; when it is not valid one
    of the two strings is empty.  When no calendar is given and none is
    detected, a valid result is always an AD one. *)
Theorem normalizeDateField_result (rawText : option jsstring)
    (calendarDetected : option Calendar) :
  match InvoiceProcessing.normalizeDateField lib rawText calendarDetected with
  | None => nullOrEmpty rawText
  | Some d =>
      rawText = Some (raw_text d) /\ raw_text d <> []
      /\ (forall c, calendarDetected = Some c -> calendar_detected d = c)
      /\ (conversion_valid d = true ->
          exists c,
            match calendar_detected d with
            | BS => convertFromBS lib (digitsConverted (raw_text d)) = Some c
            | AD => convertFromAD lib (digitsConverted (raw_text d)) = Some c
            end
            /\ bs_date d = bsFormatted c /\ ad_date d = adFormatted c
            /\ bs_date d <> [] /\ ad_date d <> [])
      /\ (conversion_valid d = false -> bs_date d = [] \/ ad_date d = [])
      /\ (calendarDetected = None ->
          detectCalendar lib (digitsConverted (raw_text d)) = None ->
          conversion_valid d = true -> calendar_detected d = AD)
  end.
Proof.
  unfold nullOrEmpty, InvoiceProcessing.normalizeDateField.
  destruct rawText as [[|r0 raw]|]; auto.
  change (Normalization.convertNepaliDigits (Some (r0 :: raw)))
    with (Some (Normalization.nepaliDigit r0 :: map Normalization.nepaliDigit raw)).
  cbv beta iota.
  change (Normalization.nepaliDigit r0 :: map Normalization.nepaliDigit raw)
    with (digitsConverted (r0 :: raw)).
  set (n := digitsConverted (r0 :: raw)).
  assert (OKBS : forall c, convertFromBS lib n = Some c ->
     let d := InvoiceProcessing.convertedDate (r0 :: raw) BS c in
     exists c0, convertFromBS lib n = Some c0 /\ bs_date d = bsFormatted c0
       /\ ad_date d = adFormatted c0 /\ bs_date d <> [] /\ ad_date d <> []).
  { intros c Hc. exists c. destruct (convertFromBS_formats lib n c Hc). simpl. auto. }
  assert (OKAD : forall c, convertFromAD lib n = Some c ->
     let d := InvoiceProcessing.convertedDate (r0 :: raw) AD c in
     exists c0, convertFromAD lib n = Some c0 /\ bs_date d = bsFormatted c0
       /\ ad_date d = adFormatted c0 /\ bs_date d <> [] /\ ad_date d <> []).
  { intros c Hc. exists c. destruct (convertFromAD_formats lib n c Hc). simpl. auto. }
  assert (NoBS : detectCalendar lib n = None -> convertFromBS lib n = None).
  { intros D. apply (detectCalendar_null lib n D). }
  assert (Finish : forall d : NormalizedDate,
     raw_text d = r0 :: raw ->
     (forall c, calendarDetected = Some c -> calendar_detected d = c) ->
     (conversion_valid d = true ->
        exists c,
          match calendar_detected d with
          | BS => convertFromBS lib n = Some c
          | AD => convertFromAD lib n = Some c
          end
          /\ bs_date d = bsFormatted c /\ ad_date d = adFormatted c
          /\ bs_date d <> [] /\ ad_date d <> []) ->
     (conversion_valid d = false -> bs_date d = [] \/ ad_date d = []) ->
     (calendarDetected = None -> detectCalendar lib n = None ->
        conversion_valid d = true -> calendar_detected d = AD) ->
     Some (r0 :: raw) = Some (raw_text d) /\ raw_text d <> []
     /\ (forall c, calendarDetected = Some c -> calendar_detected d = c)
     /\ (conversion_valid d = true ->
         exists c,
           match calendar_detected d with
           | BS => convertFromBS lib (digitsConverted (raw_text d)) = Some c
           | AD => convertFromAD lib (digitsConverted (raw_text d)) = Some c
           end
           /\ bs_date d = bsFormatted c /\ ad_date d = adFormatted c
           /\ bs_date d <> [] /\ ad_date d <> [])
     /\ (conversion_valid d = false -> bs_date d = [] \/ ad_date d = [])
     /\ (calendarDetected = None ->
         detectCalendar lib (digitsConverted (raw_text d)) = None ->
         conversion_valid d = true -> calendar_detected d = AD)).
  { intros d Hr H2 H3 H4 H5. rewrite Hr. fold n.
    repeat split; try assumption; try discriminate. }
  destruct calendarDetected as [[|]|]; cbv beta iota zeta.
  - destruct (convertFromBS lib n) as [c|] eqn:E; apply Finish; simpl;
      try reflexivity; try congruence; try discriminate; auto.
    intros _. apply (OKBS c eq_refl).
  - destruct (convertFromAD lib n) as [c|] eqn:E; apply Finish; simpl;
      try reflexivity; try congruence; try discriminate; auto.
    intros _. apply (OKAD c eq_refl).
  - destruct (detectCalendar lib n) as [[|]|] eqn:D.
    + destruct (convertFromBS lib n) as [c|] eqn:E; apply Finish; simpl;
        try reflexivity; try congruence; try discriminate; auto.
      intros _. apply (OKBS c eq_refl).
    + destruct (convertFromAD lib n) as [c|] eqn:E; apply Finish; simpl;
        try reflexivity; try congruence; try discriminate; auto.
      intros _. apply (OKAD c eq_refl).
    + rewrite (NoBS eq_refl).
      destruct (convertFromAD lib n) as [c|] eqn:E'; apply Finish; simpl;
        try reflexivity; try congruence; try discriminate; auto.
      intros _. apply (OKAD c eq_refl).
Qed.

End DateField.

(** ** The pipeline *)

Lemma determinePrimaryDate_valid (t b : option NormalizedDate) :
  let r := InvoiceProcessing.determinePrimaryDate t b in
  (forall d, fst r = Some d -> conversion_valid d = true)
  /\ (fst r = None <-> snd r = None)
  /\ (snd r = Some transaction -> fst r = t)
  /\ (snd r = Some bill_issuing -> fst r = b)
  /\ (forall d, t = Some d -> conversion_valid d = true ->
        r = (t, Some transaction)).
Proof.
  unfold InvoiceProcessing.determinePrimaryDate.
  destruct t as [td|]; [destruct (conversion_valid td) eqn:Et|];
    (destruct b as [bd|]; [destruct (conversion_valid bd) eqn:Eb|]); simpl;
    repeat split; intros; try discriminate; try congruence; auto.
Qed.

Lemma app_nil_iff {A} (a b : list A) : a ++ b = [] <-> a = [] /\ b = [].
Proof.
  split; [apply app_eq_nil|]. intros [-> ->]. reflexivity.
Qed.

Lemma optional_note_nil {A} (b : bool) (x : A) :
  (if b then [x] else []) = [] <-> b = false.
Proof. destruct b; split; intros; try discriminate; reflexivity. Qed.


Section Pipeline.

Variable toLowerCase : jsstring -> jsstring.
Variable lib : NepaliDateLib.
Variable extraction : GeminiExtractionResponse.
Variable workspaceId : jsstring.

Let r := InvoiceProcessing.processGeminiExtraction toLowerCase lib extraction workspaceId.
Let transactionDate :=
  InvoiceProcessing.normalizeDateField lib (transaction_date_raw extraction)
    (transaction_date_calendar extraction).
Let billIssuingDate :=
  InvoiceProcessing.normalizeDateField lib (bill_issuing_date_raw extraction)
    (bill_issuing_date_calendar extraction).
Let vatRate :=
  InvoiceProcessing.inferVATRate (vat_amount extraction) (taxable_amount extraction)
    (vat_rate extraction).
Let vatValidation :=
  InvoiceProcessing.validateVAT (taxable_amount extraction) (vat_amount extraction)
    (grand_total extraction) vatRate.
Let tFailed :=
  InvoiceProcessing.conversionFailed (transaction_date_raw extraction) transactionDate.
Let bFailed :=
  InvoiceProcessing.conversionFailed (bill_issuing_date_raw extraction) billIssuingDate.
Let panValid := InvoiceProcessing.validatePAN (seller_pan extraction).

Lemma process_data_dates :
  d_primary_date (InvoiceProcessing.data r)
    = fst (InvoiceProcessing.determinePrimaryDate transactionDate billIssuingDate)
  /\ d_primary_date_source (InvoiceProcessing.data r)
    = snd (InvoiceProcessing.determinePrimaryDate transactionDate billIssuingDate)
  /\ d_transaction_date (InvoiceProcessing.data r) = transactionDate
  /\ d_bill_issuing_date (InvoiceProcessing.data r) = billIssuingDate
  /\ d_grand_total (InvoiceProcessing.data r) = grand_total extraction
  /\ d_vendor_name_en (InvoiceProcessing.data r)
     = Normalization.normalizeString (vendor_name_en extraction)
  /\ d_invoice_number_en (InvoiceProcessing.data r)
     = Normalization.convertNepaliDigits
         (Normalization.normalizeString (invoice_number_en extraction)).
Proof.
  subst r. unfold InvoiceProcessing.processGeminiExtraction.
  rewrite !destruct_pair_let. repeat split.
Qed.

Lemma process_flags :
  let f := InvoiceProcessing.flags r in
  missing_fields f = fst (InvoiceProcessing.checkRequiredFields (InvoiceProcessing.data r))
  /\ math_mismatch f = InvoiceProcessing.v_math_mismatch vatValidation
  /\ vat_inconsistent f = InvoiceProcessing.v_vat_inconsistent vatValidation
  /\ date_conversion_failed f = tFailed || bFailed
  /\ pan_invalid f = negb panValid && negb (falsyStr (seller_pan extraction))
  /\ notes f =
       ((if tFailed then [InvoiceProcessing.TransactionDateFailedNote] else [])
        ++ (if bFailed then [InvoiceProcessing.BillIssuingDateFailedNote] else []))
       ++ match seller_pan extraction with
          | Some (c :: s) =>
              if negb panValid then [InvoiceProcessing.InvalidPANNote (c :: s)] else []
          | _ => []
          end
       ++ InvoiceProcessing.v_notes vatValidation
       ++ (if missing_fields f
           then [InvoiceProcessing.MissingFieldsNote
                   (snd (InvoiceProcessing.checkRequiredFields (InvoiceProcessing.data r)))]
           else [])
  /\ date_mismatch f = false /\ duplicate_invoice f = false
  /\ InvoiceProcessing.can_approve r
     = negb (missing_fields f) && negb (math_mismatch f)
       && negb (date_conversion_failed f).
Proof.
  subst r. unfold InvoiceProcessing.processGeminiExtraction.
  rewrite !destruct_pair_let. repeat split.
Qed.

Lemma validateVAT_notes (t v g : amount) (rate : Q) :
  let vv := InvoiceProcessing.validateVAT t v g rate in
  InvoiceProcessing.v_notes vv = [] <->
  InvoiceProcessing.v_math_mismatch vv = false
  /\ InvoiceProcessing.v_vat_inconsistent vv = false.
Proof.
  unfold InvoiceProcessing.validateVAT. cbv zeta.
  cbv [InvoiceProcessing.v_notes InvoiceProcessing.v_math_mismatch
       InvoiceProcessing.v_vat_inconsistent].
  match goal with
  | |- (if ?a then _ else _) ++ (if ?b then _ else _) = [] <-> _ =>
      destruct a; destruct b
  end; simpl; split; intros H; try discriminate; auto; destruct H; discriminate.
Qed.

(** X13. In the result of processGeminiExtraction the list of notes is
    empty exactly when none of the five flags the pipeline computes is
    raised; the date-mismatch and duplicate flags are never raised. *)
Theorem pipeline_flags_have_notes :
  let f := InvoiceProcessing.flags r in
  (notes f = [] <->
     missing_fields f = false /\ math_mismatch f = false
     /\ vat_inconsistent f = false /\ date_conversion_failed f = false
     /\ pan_invalid f = false)
  /\ date_mismatch f = false /\ duplicate_invoice f = false.
Proof.
  destruct process_flags as [Hm [Hmm [Hvi [Hd [Hp [Hn [H1 [H2 _]]]]]]]].
  cbv zeta in *. split; [|split; assumption].
  rewrite Hn, Hmm, Hvi, Hd, Hp.
  rewrite !app_nil_iff, !optional_note_nil.
  subst vatValidation. rewrite validateVAT_notes.
  rewrite orb_false_iff.
  assert (P : match seller_pan extraction with
              | Some (c :: s) =>
                  if negb panValid then [InvoiceProcessing.InvalidPANNote (c :: s)] else []
              | _ => []
              end = []
              <-> negb panValid && negb (falsyStr (seller_pan extraction)) = false).
  { destruct (seller_pan extraction) as [[|c s]|]; simpl;
      destruct panValid; simpl; split; intros; try discriminate; reflexivity. }
  rewrite P. tauto.
Qed.


End Pipeline.

Section PipelineKey.

Variable toLowerCase : jsstring -> jsstring.
Variable lib : NepaliDateLib.
Variable extraction : GeminiExtractionResponse.
Variable workspaceId : jsstring.

Let r := InvoiceProcessing.processGeminiExtraction toLowerCase lib extraction workspaceId.

Lemma process_merge_key :
  d_merge_key (InvoiceProcessing.data r)
  = InvoiceProcessing.generateMergeKey toLowerCase workspaceId
      (d_vendor_name_en (InvoiceProcessing.data r))
      (d_invoice_number_en (InvoiceProcessing.data r))
      match d_primary_date (InvoiceProcessing.data r) with
      | Some d => match bs_date d with [] => None | s => Some s end
      | None => None
      end.
Proof.
  subst r. unfold InvoiceProcessing.processGeminiExtraction.
  rewrite !destruct_pair_let. reflexivity.
Qed.

(** X15. When processGeminiExtraction produces a merge key, the primary
    date is valid, the workspace, vendor, invoice and date components are
    all non-empty, and the key is these four joined by vertical bars. *)
Theorem pipeline_merge_key (k : jsstring) :
  d_merge_key (InvoiceProcessing.data r) = Some k ->
  exists d,
    d_primary_date (InvoiceProcessing.data r) = Some d
    /\ conversion_valid d = true
    /\ workspaceId <> [] /\ bs_date d <> []
    /\ InvoiceProcessing.vendorNormalized toLowerCase
         (d_vendor_name_en (InvoiceProcessing.data r)) <> []
    /\ InvoiceProcessing.invoiceNormalized toLowerCase
         (d_invoice_number_en (InvoiceProcessing.data r)) <> []
    /\ k = joined workspaceId
             (InvoiceProcessing.vendorNormalized toLowerCase
                (d_vendor_name_en (InvoiceProcessing.data r)))
             (InvoiceProcessing.invoiceNormalized toLowerCase
                (d_invoice_number_en (InvoiceProcessing.data r)))
             (bs_date d).
Proof.
  rewrite process_merge_key, mergeKeyA_cases. cbv zeta.
  destruct (process_data_dates toLowerCase lib extraction workspaceId) as [Dp _].
  fold r in Dp.
  destruct (d_primary_date (InvoiceProcessing.data r)) as [d|] eqn:E.
  - assert (V : conversion_valid d = true).
    { symmetry in Dp. revert Dp. apply determinePrimaryDate_valid. }
    destruct workspaceId as [|w ws]; [discriminate|].
    destruct (d_vendor_name_en (InvoiceProcessing.data r)) as [[|? ?]|]; try discriminate.
    destruct (d_invoice_number_en (InvoiceProcessing.data r)) as [[|? ?]|];
      try discriminate.
    destruct (bs_date d) as [|b0 bd] eqn:Eb; [discriminate|].
    destruct (InvoiceProcessing.vendorNormalized _ _) as [|? ?]; [discriminate|].
    destruct (InvoiceProcessing.invoiceNormalized _ _) as [|? ?]; [discriminate|].
    intros H. inversion H. exists d. rewrite Eb.
    repeat split; try discriminate; try reflexivity; assumption.
  - destruct workspaceId as [|w ws]; [discriminate|].
    destruct (d_vendor_name_en (InvoiceProcessing.data r)) as [[|? ?]|]; try discriminate.
    destruct (d_invoice_number_en (InvoiceProcessing.data r)) as [[|? ?]|];
      discriminate.
Qed.

End PipelineKey.

(** ** validateInvoice *)

(** X16. In the result of validateInvoice the list of notes is empty
    exactly when none of the five flags it computes is raised; the
    date-mismatch and duplicate flags are never raised. *)
Theorem validateInvoice_flags_have_notes (data : Validation.InvoiceInput) :
  let f := Validation.validateInvoice data in
  (notes f = [] <->
     missing_fields f = false /\ math_mismatch f = false
     /\ vat_inconsistent f = false /\ date_conversion_failed f = false
     /\ pan_invalid f = false)
  /\ date_mismatch f = false /\ duplicate_invoice f = false.
Proof.
  unfold Validation.validateInvoice. rewrite destruct_pair_let. cbv zeta.
  cbv [notes missing_fields math_mismatch vat_inconsistent date_conversion_failed
       pan_invalid date_mismatch duplicate_invoice].
  split; [|split; reflexivity].
  rewrite !app_nil_iff, !optional_note_nil.
  assert (M : forall t v g,
            Validation.optNote (snd (Validation.checkMathMismatch t v g)) = []
            <-> fst (Validation.checkMathMismatch t v g) = false).
  { intros t v g. unfold Validation.checkMathMismatch, Validation.checkMathMismatchTol.
    destruct g; [|simpl; tauto]. cbv zeta.
    match goal with |- context [if ?c then _ else _] => destruct c end; simpl;
      split; intros; try discriminate; reflexivity. }
  assert (V : forall t v g,
            Validation.optNote (snd (Validation.checkVatInconsistent t v g)) = []
            <-> fst (Validation.checkVatInconsistent t v g) = false).
  { intros t v g. unfold Validation.checkVatInconsistent, Validation.checkVatInconsistentTol.
    destruct g as [g|]; [|simpl; tauto]. destruct (isZero g); [simpl; tauto|].
    destruct t as [t|]; [|simpl; tauto]. destruct (isZero t); [simpl; tauto|].
    destruct v as [v|]; [|simpl; tauto]. cbv zeta.
    match goal with |- context [if ?c then _ else _] => destruct c end; simpl;
      split; intros; try discriminate; reflexivity. }
  assert (P : forall p,
            Validation.optNote (Validation.pan_note (Validation.validatePAN p)) = []
            <-> negb (Validation.pan_valid (Validation.validatePAN p)) = false).
  { intros p. unfold Validation.validatePAN.
    destruct (falsyStr p); [simpl; tauto|]. destruct p as [p|]; [|simpl; tauto].
    match goal with |- context [if ?c then _ else _] => destruct c end; simpl;
      split; intros; try discriminate; reflexivity. }
  rewrite M, V, P. tauto.
Qed.


(* ------------------------------------------------------------------ *)
(** * Properties: date range and fiscal year of the other modules *)
(* ------------------------------------------------------------------ *)

(** ** The shape of a printed year *)

Lemma numberToString_shape_check :
  forallb (fun k => jsstring_eqb (numberToString (Z.of_nat k)) (yearShape (Z.of_nat k)))
    (seq 0 (Z.to_nat 10000)) = true.
Proof. vm_compute. reflexivity. Qed.

Lemma numberToString_shape (y : Z) :
  0 <= y <= 9999 -> numberToString y = yearShape y.
Proof.
  intros Hy. pose proof numberToString_shape_check as C.
  rewrite forallb_forall in C. specialize (C (Z.to_nat y)).
  rewrite Z2Nat.id in C by lia.
  assert (I : In (Z.to_nat y) (seq 0 (Z.to_nat 10000))) by (apply in_seq; lia).
  specialize (C I). unfold jsstring_eqb in C.
  destruct (list_eq_dec N.eq_dec (numberToString y) (yearShape y)); [assumption|discriminate].
Qed.

Lemma digitCode_digit (k : Z) : 0 <= k <= 9 -> isDigit (digitCode k) = true.
Proof. intros H. apply isDigit_range. unfold digitCode. lia. Qed.

Lemma year_four_digits (y : Z) :
  1000 <= y <= 9999 ->
  exists a b c d, numberToString y = [a; b; c; d]
    /\ isDigit a = true /\ isDigit b = true /\ isDigit c = true /\ isDigit d = true.
Proof.
  intros Hy. rewrite numberToString_shape by lia. unfold yearShape.
  replace (y <? 10) with false by (symmetry; apply Z.ltb_ge; lia).
  replace (y <? 100) with false by (symmetry; apply Z.ltb_ge; lia).
  replace (y <? 1000) with false by (symmetry; apply Z.ltb_ge; lia).
  do 4 eexists. split; [reflexivity|].
  repeat split; apply digitCode_digit; Z.div_mod_to_equations; lia.
Qed.

Lemma year_short (y : Z) :
  0 <= y < 1000 ->
  exists ds, numberToString y = ds /\ (List.length ds < 4)%nat.
Proof.
  intros Hy. rewrite numberToString_shape by lia. unfold yearShape.
  eexists. split; [reflexivity|].
  destruct (y <? 10); [simpl; lia|]. destruct (y <? 100); [simpl; lia|].
  replace (y <? 1000) with true by (symmetry; apply Z.ltb_lt; lia). simpl. lia.
Qed.

Lemma two_digits (m : Z) :
  0 <= m < 100 ->
  exists a b, pad2 m = [a; b] /\ isDigit a = true /\ isDigit b = true.
Proof.
  intros Hm. unfold pad2. rewrite pad2_twoDigits by lia. unfold twoDigits.
  do 2 eexists. split; [reflexivity|].
  split; apply isDigit_range; Z.div_mod_to_equations; lia.
Qed.

(** ** Date checks of the validation module *)

(** X18. On the formatted string of a BS date with a year from 0 to 9999,
    validateDateRange answers valid exactly when the year is from 2070 to
    2095. *)
Theorem validateDateRange_formatted (bs : BSDate) :
  0 <= bs_year bs <= 9999 ->
  (fst (ValidationDates.validateDateRange (Some (formatBSDate bs))) = true
   <-> 2070 <= bs_year bs <= 2095).
Proof.
  intros Hy. rewrite formatBSDate_printed. unfold printed.
  set (rest := pad2 (bs_month bs) ++ [47%N] ++ pad2 (bs_day bs)).
  destruct (Z_lt_ge_dec (bs_year bs) 1000) as [Hs | Hl].
  - destruct (year_short (bs_year bs)) as [ds [-> Hlen]]; [lia|].
    match goal with
    | |- (fst ?X = true <-> _) => assert (E : fst X = false)
    end.
    { unfold ValidationDates.validateDateRange.
      destruct ds as [|a [|b [|c [|d ds]]]]; simpl in Hlen; try lia; simpl.
      - destruct rest as [|? [|? [|? ?]]]; reflexivity.
      - destruct rest as [|? [|? ?]]; simpl; try reflexivity;
          rewrite !andb_false_r; reflexivity.
      - destruct rest as [|? ?]; simpl; try reflexivity;
          rewrite ?andb_false_r; reflexivity.
      - rewrite andb_false_r. reflexivity. }
    rewrite E. split; [discriminate | lia].
  - destruct (year_four_digits (bs_year bs)) as [a [b [c [d [E [Da [Db [Dc Dd]]]]]]]];
      [lia|].
    destruct (numberToString_digits (bs_year bs)) as [_ [_ V]]; [lia|].
    rewrite E in *. unfold ValidationDates.validateDateRange. simpl.
    rewrite Da, Db, Dc, Dd. simpl andb. cbv iota.
    rewrite parseInt_digits
      by (try discriminate; simpl; rewrite Da, Db, Dc, Dd; reflexivity).
    rewrite V.
    destruct ((bs_year bs <? 2070) || (2095 <? bs_year bs)) eqn:R; simpl.
    + rewrite orb_true_iff, !Z.ltb_lt in R. split; [discriminate | lia].
    + rewrite orb_false_iff, !Z.ltb_ge in R. split; [lia | reflexivity].
Qed.

(** ** The fiscal year of the export module *)

Lemma padStart_two (e : Z) :
  0 <= e < 100 ->
  (10 <= e -> padStart 2 48%N (numberToString e) = numberToString e)
  /\ (e < 10 -> padStart 2 48%N (numberToString e) = 48%N :: numberToString e).
Proof.
  intros He. rewrite numberToString_shape by lia. unfold yearShape.
  split; intros H.
  - replace (e <? 10) with false by (symmetry; apply Z.ltb_ge; lia).
    replace (e <? 100) with true by (symmetry; apply Z.ltb_lt; lia). reflexivity.
  - replace (e <? 10) with true by (symmetry; apply Z.ltb_lt; lia). reflexivity.
Qed.

Lemma export_fiscal_year (bs : BSDate) :
  1000 <= bs_year bs <= 9999 -> 1 <= bs_month bs <= 12 ->
  InvoiceExport.getFiscalYear (Some (formatBSDate bs))
  = Some (if 4 <=? bs_month bs
          then numberToString (bs_year bs) ++ u "/"
                 ++ numberToString (Z.rem (bs_year bs + 1) 100)
          else numberToString (bs_year bs - 1) ++ u "/"
                 ++ numberToString (Z.rem (bs_year bs) 100)).
Proof.
  intros Hy Hm. rewrite formatBSDate_printed. unfold printed.
  destruct (year_four_digits (bs_year bs) Hy) as [a [b [c [d [E [Da [Db [Dc Dd]]]]]]]].
  destruct (two_digits (bs_month bs)) as [m1 [m2 [Em [D1 D2]]]]; [lia|].
  destruct (numberToString_digits (bs_year bs)) as [_ [_ Vy]]; [lia|].
  destruct (pad2_digits (bs_month bs)) as [_ [_ Vm]]; [lia|].
  assert (Py : parseInt [a; b; c; d] = Some (bs_year bs)).
  { rewrite parseInt_digits
      by (try discriminate; simpl; rewrite Da, Db, Dc, Dd; reflexivity).
    rewrite <- E, Vy. reflexivity. }
  assert (Pm : parseInt [m1; m2] = Some (bs_month bs)).
  { rewrite parseInt_digits by (try discriminate; simpl; rewrite D1, D2; reflexivity).
    rewrite <- Em, Vm. reflexivity. }
  rewrite Em. rewrite E at 1. unfold InvoiceExport.getFiscalYear. simpl app.
  unfold InvoiceExport.matchYearMonth. rewrite Da, Db, Dc, Dd, D1, D2. simpl andb. cbv iota.
  rewrite Py, Pm. rewrite E. destruct (4 <=? bs_month bs); reflexivity.
Qed.

(** X19. The fiscal year of the export module, read from a formatted BS
    date with a four-digit year, is the one of the calendar module when the
    two-digit end of the fiscal year is 10 or more; below 10 the export
    module leaves out the leading zero and the two differ. *)
Theorem fiscal_year_modules_agree (bs : BSDate) :
  1000 <= bs_year bs <= 9999 -> 1 <= bs_month bs <= 12 ->
  (10 <= fiscalEnd bs ->
     InvoiceExport.getFiscalYear (Some (formatBSDate bs)) = Some (getFiscalYear bs))
  /\ (fiscalEnd bs < 10 ->
     InvoiceExport.getFiscalYear (Some (formatBSDate bs)) <> Some (getFiscalYear bs)).
Proof.
  intros Hy Hm. rewrite (export_fiscal_year bs Hy Hm).
  unfold getFiscalYear, fiscalEnd.
  destruct (4 <=? bs_month bs).
  - rewrite Z.rem_mod_nonneg by lia.
    assert (B : 0 <= (bs_year bs + 1) mod 100 < 100) by (apply Z.mod_pos_bound; lia).
    destruct (padStart_two _ B) as [P1 P2]. split; intros H.
    + rewrite (P1 H). reflexivity.
    + rewrite (P2 H). intros Q. inversion Q as [Q'].
      apply app_inv_head in Q'.
      apply (f_equal (@List.length N)) in Q'. simpl in Q'. lia.
  - rewrite Z.rem_mod_nonneg by lia.
    assert (B : 0 <= bs_year bs mod 100 < 100) by (apply Z.mod_pos_bound; lia).
    destruct (padStart_two _ B) as [P1 P2]. split; intros H.
    + rewrite (P1 H). reflexivity.
    + rewrite (P2 H). intros Q. inversion Q as [Q'].
      apply app_inv_head in Q'.
      apply (f_equal (@List.length N)) in Q'. simpl in Q'. lia.
Qed.

(* ------------------------------------------------------------------ *)
(** * Properties: normalizeDateString *)
(* ------------------------------------------------------------------ *)

Lemma digits12_sound (s m r : jsstring) :
  digits12 s = Some (m, r) -> m <> [] /\ forallb isDigit m = true.
Proof.
  unfold digits12. destruct s as [|a [|b rest]]; try discriminate.
  - destruct (isDigit a) eqn:Da; try discriminate. intros H. inversion H; subst.
    split; [discriminate|]. simpl. rewrite Da. reflexivity.
  - destruct (isDigit a) eqn:Da; try discriminate.
    destruct (isDigit b) eqn:Db; intros H; inversion H; subst;
      (split; [discriminate|]); simpl; rewrite Da, ?Db; reflexivity.
Qed.

Lemma digits12_length (s m r : jsstring) :
  digits12 s = Some (m, r) -> (List.length m <= 2)%nat.
Proof.
  unfold digits12. destruct s as [|a [|b rest]]; try discriminate.
  - destruct (isDigit a); try discriminate. intros H. inversion H; subst. simpl. lia.
  - destruct (isDigit a); try discriminate.
    destruct (isDigit b); intros H; inversion H; subst; simpl; lia.
Qed.

Lemma matchDateAt_sound (s y m d : jsstring) :
  matchDateAt s = Some (y, m, d) ->
  (List.length y = 4%nat /\ forallb isDigit y = true)
  /\ (m <> [] /\ forallb isDigit m = true)
  /\ (d <> [] /\ forallb isDigit d = true).
Proof.
  unfold matchDateAt. destruct s as [|a [|b [|c [|e r0]]]]; try discriminate.
  destruct (isDigit a && isDigit b && isDigit c && isDigit e) eqn:D; try discriminate.
  destruct (slashBetweenSpaces r0) as [r1|]; try discriminate.
  destruct (digits12 r1) as [[m' r2]|] eqn:E1; try discriminate.
  destruct (slashBetweenSpaces r2) as [r3|]; try discriminate.
  destruct (digits12 r3) as [[d' r4]|] eqn:E2; try discriminate.
  intros H. inversion H; subst. split; [|split].
  - split; [reflexivity|].
    apply andb_prop in D. destruct D as [D De].
    apply andb_prop in D. destruct D as [D Dc].
    apply andb_prop in D. destruct D as [Da Db].
    simpl. rewrite Da, Db, Dc, De. reflexivity.
  - exact (digits12_sound _ _ _ E1).
  - exact (digits12_sound _ _ _ E2).
Qed.

Lemma matchDate_cons (c : N) (s : jsstring) :
  matchDate (c :: s)
  = match matchDateAt (c :: s) with Some r => Some r | None => matchDate s end.
Proof. reflexivity. Qed.

Lemma matchDate_sound (s y m d : jsstring) :
  matchDate s = Some (y, m, d) ->
  (List.length y = 4%nat /\ forallb isDigit y = true)
  /\ (m <> [] /\ forallb isDigit m = true)
  /\ (d <> [] /\ forallb isDigit d = true).
Proof.
  induction s as [|c s IH].
  - discriminate.
  - rewrite matchDate_cons. destruct (matchDateAt (c :: s)) as [[[y' m'] d']|] eqn:E.
    + intros H. inversion H; subst. exact (matchDateAt_sound _ _ _ _ E).
    + exact IH.
Qed.

Lemma four_digits_value (y : jsstring) :
  List.length y = 4%nat -> forallb isDigit y = true -> 0 <= digitsValue y <= 9999.
Proof.
  destruct y as [|a [|b [|c [|d [|]]]]]; try discriminate. intros _ H.
  simpl in H. repeat (apply andb_prop in H; destruct H as [? H]).
  repeat match goal with X : isDigit _ = true |- _ => apply isDigit_range in X end.
  unfold digitsValue. cbn [fold_left]. lia.
Qed.

Lemma nepaliDigit_digit_or_slash (s : jsstring) :
  forallb (isDateUnit 47%N) s = true -> map nepaliDigit s = s.
Proof.
  intros H. apply (map_fixed nepaliDigit (fun c => negb (isNepaliDigitUnit c))).
  - intros c Hc. apply nepaliDigit_fixed.
    destruct (isNepaliDigitUnit c); [discriminate|reflexivity].
  - eapply forallb_impl; [|exact H]. intros c Hc. unfold isDateUnit in Hc.
    unfold isNepaliDigitUnit. unfold isDigit in Hc.
    destruct (N.leb_spec 2406 c); [|reflexivity].
    destruct (N.leb_spec 48 c), (N.leb_spec c 57), (N.eqb_spec c 47); simpl in *;
      try discriminate; lia.
Qed.

Lemma digits_value_two (a b : N) (v : Z) :
  isDigit a = true -> isDigit b = true ->
  parseInt [a; b] = Some (digitsValue [a; b]).
Proof.
  intros Da Db. apply parseInt_digits; [discriminate|]. simpl. rewrite Da, Db. reflexivity.
Qed.

Lemma slash_then_digit (x : N) (r : jsstring) :
  isDigit x = true -> slashBetweenSpaces (47%N :: x :: r) = Some (x :: r).
Proof.
  intros D. unfold slashBetweenSpaces. simpl. rewrite (digit_not_whitespace x D). reflexivity.
Qed.

Lemma digits12_two (a b : N) (r : jsstring) :
  isDigit a = true -> isDigit b = true -> digits12 (a :: b :: r) = Some ([a; b], r).
Proof. intros Da Db. unfold digits12. rewrite Da, Db. reflexivity. Qed.

Lemma matchDateAt_canonical (a b c d m1 m2 d1 d2 : N) (r : jsstring) :
  isDigit a = true -> isDigit b = true -> isDigit c = true -> isDigit d = true ->
  isDigit m1 = true -> isDigit m2 = true -> isDigit d1 = true -> isDigit d2 = true ->
  matchDateAt (a :: b :: c :: d :: 47%N :: m1 :: m2 :: 47%N :: d1 :: d2 :: r)
  = Some ([a; b; c; d], [m1; m2], [d1; d2]).
Proof.
  intros Da Db Dc Dd M1 M2 D1 D2. unfold matchDateAt.
  rewrite Da, Db, Dc, Dd. cbn [andb].
  rewrite (slash_then_digit m1 _ M1), (digits12_two m1 m2 _ M1 M2).
  rewrite (slash_then_digit d1 _ D1), (digits12_two d1 d2 _ D1 D2). reflexivity.
Qed.

Lemma normalizeDateString_plain (bs : BSDate) :
  0 <= bs_year bs -> 0 <= bs_month bs -> 0 <= bs_day bs ->
  normalizeDateString (Some (formatBSDate bs)) = normalizeMatched (formatBSDate bs).
Proof.
  intros Hy Hm Hd.
  pose proof (printed_units 47%N (bs_year bs) (bs_month bs) (bs_day bs) Hy Hm Hd) as U.
  rewrite <- formatBSDate_printed in U.
  unfold normalizeDateString, normalizeMatched.
  assert (Ne : formatBSDate bs <> []) by apply printed_not_empty_format.
  destruct (formatBSDate bs) as [|c0 r0] eqn:Ef; [contradiction|].
  cbn [falsyStr convertNepaliDigits]. rewrite (nepaliDigit_digit_or_slash _ U).
  rewrite replaceClass_none
    by (apply (dateUnit_plain 47%N); [exact digit_not_dotOrHyphen|reflexivity|exact U]).
  reflexivity.
Qed.

Lemma normalizeDateString_formatted (bs : BSDate) :
  1000 <= bs_year bs <= 9999 -> 1 <= bs_month bs <= 12 -> 1 <= bs_day bs <= 32 ->
  normalizeDateString (Some (formatBSDate bs)) = Some (formatBSDate bs).
Proof.
  intros Hy Hm Hd. rewrite normalizeDateString_plain by lia. unfold normalizeMatched.
  destruct (year_four_digits (bs_year bs) Hy) as [a [b [c [d [E [Da [Db [Dc Dd]]]]]]]].
  destruct (two_digits (bs_month bs)) as [m1 [m2 [Em [M1 M2]]]]; [lia|].
  destruct (two_digits (bs_day bs)) as [d1 [d2 [Ed [D1 D2]]]]; [lia|].
  destruct (numberToString_digits (bs_year bs)) as [_ [_ Vy]]; [lia|].
  destruct (pad2_digits (bs_month bs)) as [_ [_ Vm]]; [lia|].
  destruct (pad2_digits (bs_day bs)) as [_ [_ Vd]]; [lia|].
  assert (Py : parseInt [a; b; c; d] = Some (bs_year bs)).
  { rewrite parseInt_digits
      by (try discriminate; simpl; rewrite Da, Db, Dc, Dd; reflexivity).
    rewrite <- E, Vy. reflexivity. }
  assert (Pm : parseInt [m1; m2] = Some (bs_month bs)).
  { rewrite parseInt_digits by (try discriminate; simpl; rewrite M1, M2; reflexivity).
    rewrite <- Em, Vm. reflexivity. }
  assert (Pd : parseInt [d1; d2] = Some (bs_day bs)).
  { rewrite parseInt_digits by (try discriminate; simpl; rewrite D1, D2; reflexivity).
    rewrite <- Ed, Vd. reflexivity. }
  assert (Md : matchDate (formatBSDate bs) = Some ([a; b; c; d], [m1; m2], [d1; d2])).
  { unfold formatBSDate. rewrite E, Em, Ed.
    change (matchDate (a :: b :: c :: d :: 47%N :: m1 :: m2 :: 47%N :: [d1; d2])
            = Some ([a; b; c; d], [m1; m2], [d1; d2])).
    rewrite matchDate_cons, matchDateAt_canonical by assumption. reflexivity. }
  rewrite Md. rewrite Py, Pm, Pd. unfold outside.
  replace (bs_month bs <? 1) with false by (symmetry; apply Z.ltb_ge; lia).
  replace (12 <? bs_month bs) with false by (symmetry; apply Z.ltb_ge; lia).
  replace (bs_day bs <? 1) with false by (symmetry; apply Z.ltb_ge; lia).
  replace (32 <? bs_day bs) with false by (symmetry; apply Z.ltb_ge; lia).
  reflexivity.
Qed.

Lemma matchDate_short_year (ys : jsstring) (m1 m2 d1 d2 : N) :
  (List.length ys < 4)%nat ->
  isDigit m1 = true -> isDigit m2 = true -> isDigit d1 = true -> isDigit d2 = true ->
  matchDate (ys ++ 47%N :: m1 :: m2 :: 47%N :: [d1; d2]) = None.
Proof.
  intros L M1 M2 D1 D2.
  assert (S47 : isDigit 47 = false) by reflexivity.
  destruct ys as [|a [|b [|c [|e ys]]]]; [| | | |simpl in L; lia]; cbn [app];
    repeat (rewrite matchDate_cons; unfold matchDateAt at 1;
            rewrite ?S47, ?M1, ?M2, ?D1, ?D2, ?andb_false_r; cbn [andb]);
    reflexivity.
Qed.

Lemma normalizeDateString_short_year (bs : BSDate) :
  0 <= bs_year bs < 1000 -> 1 <= bs_month bs <= 12 -> 1 <= bs_day bs <= 32 ->
  normalizeDateString (Some (formatBSDate bs)) = None.
Proof.
  intros Hy Hm Hd. rewrite normalizeDateString_plain by lia. unfold normalizeMatched.
  destruct (year_short (bs_year bs) Hy) as [ys [E L]].
  destruct (two_digits (bs_month bs)) as [m1 [m2 [Em [M1 M2]]]]; [lia|].
  destruct (two_digits (bs_day bs)) as [d1 [d2 [Ed [D1 D2]]]]; [lia|].
  unfold formatBSDate. rewrite E, Em, Ed.
  change (match matchDate (ys ++ 47%N :: m1 :: m2 :: 47%N :: [d1; d2]) with
          | None => None
          | Some (y, m, d) =>
              if outside 1 12 (parseInt m) || outside 1 32 (parseInt d) then None
              else Some (showNumber (parseInt y) ++ u "/"
                   ++ padStart 2 48%N (showNumber (parseInt m)) ++ u "/"
                   ++ padStart 2 48%N (showNumber (parseInt d)))
          end = None).
  rewrite matchDate_short_year by assumption. reflexivity.
Qed.

Lemma normalizeDateString_sound (input : option jsstring) (r : jsstring) :
  normalizeDateString input = Some r ->
  exists bs,
    r = formatBSDate bs
    /\ 0 <= bs_year bs <= 9999 /\ 1 <= bs_month bs <= 12 /\ 1 <= bs_day bs <= 32.
Proof.
  unfold normalizeDateString. destruct (falsyStr input); [discriminate|].
  destruct (convertNepaliDigits input) as [[|c0 s0]|]; try discriminate.
  destruct (matchDate (replaceClass isDotOrHyphen 47%N (c0 :: s0))) as [[[y m] d]|] eqn:Em;
    try discriminate.
  destruct (matchDate_sound _ _ _ _ Em) as [[Ly Dy] [[Nm Dm] [Nd Dd]]].
  cbv zeta.
  assert (Ny : y <> []) by (intros ->; discriminate).
  rewrite (parseInt_digits y Ny Dy), (parseInt_digits m Nm Dm), (parseInt_digits d Nd Dd).
  unfold outside, showNumber.
  destruct ((digitsValue m <? 1) || (12 <? digitsValue m)
            || ((digitsValue d <? 1) || (32 <? digitsValue d))) eqn:B; [discriminate|].
  apply orb_false_iff in B. destruct B as [B1 B2].
  apply orb_false_iff in B1. destruct B1 as [B1 B1'].
  apply orb_false_iff in B2. destruct B2 as [B2 B2'].
  apply Z.ltb_ge in B1, B1', B2, B2'.
  pose proof (four_digits_value y Ly Dy) as By.
  intros H. inversion H as [Hr]. clear H.
  exists (mkBS (digitsValue y) (digitsValue m) (digitsValue d)).
  cbn [bs_year bs_month bs_day].
  split; [reflexivity|]. split; [exact By|]. split; lia.
Qed.

(** X20. A result of normalizeDateString is formatBSDate of a date with a
    year from 0 to 9999, a month from 1 to 12 and a day from 1 to 32; it
    parses back to that date with parseBSDate.  Normalising it again gives
    it back when the year is 1000 or more, and null when it is less. *)
Theorem normalizeDateString_canonical (input : option jsstring) (r : jsstring) :
  normalizeDateString input = Some r ->
  exists bs,
    r = formatBSDate bs
    /\ 0 <= bs_year bs <= 9999 /\ 1 <= bs_month bs <= 12 /\ 1 <= bs_day bs <= 32
    /\ parseBSDate r = Some bs
    /\ (1000 <= bs_year bs -> normalizeDateString (Some r) = Some r)
    /\ (bs_year bs < 1000 -> normalizeDateString (Some r) = None).
Proof.
  intros H. destruct (normalizeDateString_sound input r H) as [bs [E [Hy [Hm Hd]]]].
  exists bs. subst r.
  split; [reflexivity|]. split; [exact Hy|]. split; [exact Hm|]. split; [exact Hd|].
  split; [apply parse_format_BS; lia|].
  split; intros Hyr.
  - apply normalizeDateString_formatted; lia.
  - apply normalizeDateString_short_year; lia.
Qed.

(* ------------------------------------------------------------------ *)
(** * Properties: days of a month and CSV fields *)
(* ------------------------------------------------------------------ *)

(** X21. getDaysInBSMonth returns a number from 28 to 32: 30 when the
    library keeps none of the days 28 to 32 of the month, and otherwise the
    largest of them that it keeps. *)
Theorem getDaysInBSMonth_largest (lib : NepaliDateLib) (year month : Z) :
  let n := getDaysInBSMonth lib year month in
  28 <= n <= 32
  /\ ((forall d, 28 <= d <= 32 -> keepsDay lib year month d = false) -> n = 30)
  /\ (forall d, 28 <= d <= 32 -> keepsDay lib year month d = true ->
        d <= n /\ keepsDay lib year month n = true).
Proof.
  unfold getDaysInBSMonth. cbn [find].
  destruct (keepsDay lib year month 32) eqn:K32;
  [|destruct (keepsDay lib year month 31) eqn:K31;
  [|destruct (keepsDay lib year month 30) eqn:K30;
  [|destruct (keepsDay lib year month 29) eqn:K29;
  [|destruct (keepsDay lib year month 28) eqn:K28]]]];
  cbv zeta; (split; [lia|]);
  (split; [intros A; try reflexivity;
           pose proof (A 32 ltac:(lia)); pose proof (A 31 ltac:(lia));
           pose proof (A 29 ltac:(lia)); pose proof (A 28 ltac:(lia)); congruence |]);
  intros d Hd Kd;
  assert (C : d = 28 \/ d = 29 \/ d = 30 \/ d = 31 \/ d = 32) by lia;
  destruct C as [-> | [-> | [-> | [-> | ->]]]];
  try (split; [lia|assumption]); congruence.
Qed.

Lemma doubleQuotes_cons (c : N) (s : jsstring) :
  InvoiceExport.doubleQuotes (c :: s)
  = (if (c =? 34)%N then [34%N; 34%N] else [c]) ++ InvoiceExport.doubleQuotes s.
Proof. reflexivity. Qed.

Lemma doubleQuotes_injective (a b : jsstring) :
  InvoiceExport.doubleQuotes a = InvoiceExport.doubleQuotes b -> a = b.
Proof.
  revert b. induction a as [|c a IH]; intros [|d b]; rewrite ?doubleQuotes_cons.
  - reflexivity.
  - destruct (d =? 34)%N; discriminate.
  - destruct (c =? 34)%N; discriminate.
  - destruct (N.eqb_spec c 34) as [-> | Hc], (N.eqb_spec d 34) as [-> | Hd];
      cbn [app]; intros H; inversion H; subst; try congruence.
    + f_equal. apply IH. assumption.
    + f_equal. apply IH. assumption.
Qed.

Lemma includes_head (c : N) (s : jsstring) : InvoiceExport.includes c (c :: s) = true.
Proof. unfold InvoiceExport.includes. simpl. rewrite N.eqb_refl. reflexivity. Qed.

(** X22. escapeCSV never maps two different values to the same CSV
    field. *)
Theorem escapeCSV_injective (a b : jsstring) :
  InvoiceExport.escapeCSV a = InvoiceExport.escapeCSV b -> a = b.
Proof.
  unfold InvoiceExport.escapeCSV.
  destruct (InvoiceExport.includes 44%N a || InvoiceExport.includes 34%N a
            || InvoiceExport.includes 10%N a) eqn:Qa;
  destruct (InvoiceExport.includes 44%N b || InvoiceExport.includes 34%N b
            || InvoiceExport.includes 10%N b) eqn:Qb; intros H.
  - inversion H as [H']. apply app_inv_tail in H'. apply doubleQuotes_injective. exact H'.
  - subst b. rewrite includes_head in Qb. rewrite orb_true_r in Qb. discriminate.
  - subst a. rewrite includes_head in Qa. rewrite orb_true_r in Qa. discriminate.
  - exact H.
Qed.

(* ------------------------------------------------------------------ *)
(** * The properties at concrete inputs *)
(* ------------------------------------------------------------------ *)

Lemma parseBSDate_formatBSDate_witness :
  parseBSDate (formatBSDate (mkBS 2081 1 5)) = Some (mkBS 2081 1 5).
Proof. apply (parseBSDate_formatBSDate (mkBS 2081 1 5)); simpl; lia. Defined.

Lemma parseADDate_formatADDate_witness :
  parseADDate (formatADDate (mkAD 2024 4 13)) = Some (mkAD 2024 4 13).
Proof. apply (parseADDate_formatADDate (mkAD 2024 4 13)); simpl; lia. Defined.

Lemma convertFromBS_canonical_witness :
  exists c,
    convertFromBS tableLib (u "2081-1-1") = Some c
    /\ bsFormatted c = u "2081/01/01"
    /\ convertFromBS tableLib (bsFormatted c) = Some c.
Proof.
  eexists. split; [vm_compute; reflexivity|]. split; [reflexivity|].
  apply (convertFromBS_canonical tableLib (u "2081-1-1")). vm_compute. reflexivity.
Defined.

Lemma convertFromAD_canonical_witness :
  exists c,
    convertFromAD tableLib (u "2024/4/13") = Some c
    /\ adFormatted c = u "2024-04-13"
    /\ convertFromAD tableLib (adFormatted c) = Some c.
Proof.
  eexists. split; [vm_compute; reflexivity|]. split; [reflexivity|].
  apply (convertFromAD_canonical tableLib (u "2024/4/13")). vm_compute. reflexivity.
Defined.

Lemma detectCalendar_of_BS_string_witness :
  parseBSDate (u "2030/01/05") = Some (mkBS 2030 1 5)
  /\ detectCalendar tableLib (u "2030/01/05") = Some AD
  /\ parseBSDate (u "2081/01/05") = Some (mkBS 2081 1 5)
  /\ detectCalendar tableLib (u "2081/01/05") = Some BS.
Proof.
  split; [vm_compute; reflexivity|]. split.
  - rewrite (detectCalendar_of_BS_string tableLib (u "2030/01/05") (mkBS 2030 1 5))
      by (vm_compute; reflexivity).
    vm_compute. reflexivity.
  - split; [vm_compute; reflexivity|].
    rewrite (detectCalendar_of_BS_string tableLib (u "2081/01/05") (mkBS 2081 1 5))
      by (vm_compute; reflexivity).
    vm_compute. reflexivity.
Defined.

Lemma detectCalendar_none_witness :
  detectCalendar tableLib (u "2025-12-22.5") = None
  /\ parseBSDate (u "2025-12-22.5") = None
  /\ convertFromBS tableLib (u "2025-12-22.5") = None.
Proof.
  split; [vm_compute; reflexivity|].
  apply (detectCalendar_none tableLib). vm_compute. reflexivity.
Defined.

Lemma nepaliDigits_roundtrip_witness :
  convertNepaliDigits (convertToNepaliDigits (Some (u "2081/01/05")))
  = Some (u "2081/01/05")
  /\ convertToNepaliDigits (convertNepaliDigits (Some [2408; 2406; 2414; 2407]%N))
     = Some [2408; 2406; 2414; 2407]%N.
Proof.
  split.
  - apply (nepaliDigits_roundtrip (u "2081/01/05")); [discriminate | vm_compute; reflexivity].
  - apply (nepaliDigits_roundtrip [2408; 2406; 2414; 2407]%N);
      [discriminate | vm_compute; reflexivity].
Defined.

Lemma normalizeInvoiceNumber_idempotent_witness :
  normalizeInvoiceNumber asciiToLowerCase (Some (u " INV-001A ")) = Some (u "inv-001a")
  /\ normalizeInvoiceNumber asciiToLowerCase (Some (u "inv-001a")) = Some (u "inv-001a").
Proof.
  split; [vm_compute; reflexivity|].
  apply (normalizeInvoiceNumber_idempotent asciiToLowerCase (fun s _ => eq_refl)
           (Some (u " INV-001A "))).
  vm_compute. reflexivity.
Defined.


Lemma pipeline_merge_key_witness :
  d_merge_key (InvoiceProcessing.data
    (run (extractionOf (Some 1000%Q) (Some 130%Q) (Some 13%Q) (Some 1130%Q))))
  = Some (u "ws1|acme traders|inv001|2082/09/07")
  /\ exists d,
       d_primary_date (InvoiceProcessing.data
         (run (extractionOf (Some 1000%Q) (Some 130%Q) (Some 13%Q) (Some 1130%Q)))) = Some d
       /\ conversion_valid d = true.
Proof.
  split; [vm_compute; reflexivity|].
  destruct (pipeline_merge_key asciiToLowerCase tableLib
              (extractionOf (Some 1000%Q) (Some 130%Q) (Some 13%Q) (Some 1130%Q)) (u "ws1")
              (u "ws1|acme traders|inv001|2082/09/07"))
    as [d [Hd [Hv _]]]; [vm_compute; reflexivity|].
  exists d. split; assumption.
Defined.

Lemma validateDateRange_formatted_witness :
  fst (ValidationDates.validateDateRange (Some (formatBSDate (mkBS 2082 9 7)))) = true
  <-> 2070 <= 2082 <= 2095.
Proof. apply (validateDateRange_formatted (mkBS 2082 9 7)). simpl. lia. Defined.

Lemma fiscal_year_modules_agree_witness :
  InvoiceExport.getFiscalYear (Some (formatBSDate (mkBS 2082 9 7)))
  = Some (getFiscalYear (mkBS 2082 9 7))
  /\ InvoiceExport.getFiscalYear (Some (formatBSDate (mkBS 2108 9 7)))
     <> Some (getFiscalYear (mkBS 2108 9 7)).
Proof.
  split.
  - apply (fiscal_year_modules_agree (mkBS 2082 9 7)); simpl; try lia.
    vm_compute. discriminate.
  - apply (fiscal_year_modules_agree (mkBS 2108 9 7)); simpl; try lia.
    vm_compute. reflexivity.
Defined.

Lemma normalizeDateString_canonical_witness :
  normalizeDateString (Some (u "Date: 2081.1.5")) = Some (u "2081/01/05")
  /\ exists bs,
       u "2081/01/05" = formatBSDate bs /\ parseBSDate (u "2081/01/05") = Some bs.
Proof.
  split; [vm_compute; reflexivity|].
  destruct (normalizeDateString_canonical (Some (u "Date: 2081.1.5")) (u "2081/01/05"))
    as [bs [E [_ [_ [_ [P _]]]]]]; [vm_compute; reflexivity|].
  exists bs. split; assumption.
Defined.

Lemma escapeCSV_injective_witness :
  InvoiceExport.escapeCSV (u "a,b") = InvoiceExport.escapeCSV (u "a,b")
  /\ u "a,b" = u "a,b".
Proof.
  split; [reflexivity|].
  apply (escapeCSV_injective (u "a,b") (u "a,b")). reflexivity.
Defined.
